(** * ARYPHISH_DETECTOR: fetch, fan-out and merge (main.py)

    A shallow embedding of the request path of [main.py]:
    [fetch_website_content], the two provider adapters
    [analyze_with_gemini] and [analyze_with_openai], the helper
    [perform_analysis], the Flask route [analyze], and the result
    formatter [formatResult] of the page's script.

    Conventions.
    - A Python or JavaScript string is a [string]; one element of it
      stands for one character.
    - Code that performs I/O or may raise lives in the monad [M]: it
      threads the log of outbound calls (one [event] per network call)
      and ends in [Return v] or [Raise e].
    - What the outside world answers is a parameter, the record [world]:
      the page behind a URL and the reply of each backend.  Console
      output ([print], [console.log]) is not part of the model.
    - Every exception of the model is an instance of Python's
      [Exception]; cancellation and interpreter shutdown are outside
      the model. *)

From Stdlib Require Import ZArith String Ascii List Lia.
From stdpp Require Import base option list strings pretty gmap.

Local Open Scope Z_scope.

(** ** Exceptions *)

(** The subclasses of [httpx.RequestError] that a GET can end in. *)
Inductive request_error_kind :=
| DnsFailure
| ConnectionRefused
| TlsFailure
| ConnectTimeout
| ReadTimeout
| TooManyRedirects
| OtherRequestError.

Inductive exn :=
| HTTPStatusError (status_code : Z) (msg : string)
| RequestError (kind : request_error_kind) (msg : string)
| IndexError
| AttributeError (msg : string)
| Exception (msg : string).

(** [str(e)], also what [f"{e}"] prints. *)
Definition str (e : exn) : string :=
  match e with
  | HTTPStatusError _ msg => msg
  | RequestError _ msg => msg
  | IndexError => "list index out of range"
  | AttributeError msg => msg
  | Exception msg => msg
  end.

(** ** Values *)

(** What the code holds where it expects a string: a string, or [None]
    (JSON [null] once [jsonify] has run). *)
Inductive pyval :=
| PStr (s : string)
| PNone.
Coercion PStr : string >-> pyval.

#[global] Instance pyval_eq_dec : EqDecision pyval.
Proof. solve_decision. Defined.

(** ** The effect monad *)

Inductive event :=
| HttpGet (url : string)
| GeminiGenerate (full_prompt : string)
| OpenAICreate (model system_content user_content : string).

Inductive outcome (A : Type) :=
| Return (a : A)
| Raise (e : exn).
Arguments Return {A} a.
Arguments Raise {A} e.

Definition M (A : Type) : Type := list event → outcome A * list event.

Definition ret {A} (a : A) : M A := λ tr, (Return a, tr).
Definition raise {A} (e : exn) : M A := λ tr, (Raise e, tr).
Definition emit (ev : event) : M unit := λ tr, (Return tt, tr ++ [ev]).
Definition lift {A} (o : outcome A) : M A := λ tr, (o, tr).

Definition bind {A B} (m : M A) (k : A → M B) : M B :=
  λ tr, match m tr with
        | (Return a, tr') => k a tr'
        | (Raise e, tr') => (Raise e, tr')
        end.

Notation "'do' x <- m ; k" := (bind m (λ x, k))
  (at level 10, x name, m at level 100, k at level 200).
Notation "'do' ' p <- m ; k" := (bind m (λ x, match x with p => k end))
  (at level 10, p pattern, m at level 100, k at level 200).
Notation "'run' m ; k" := (bind m (λ _, k))
  (at level 10, m at level 100, k at level 200).

(** [try: body except <clauses>]: [handler e = None] when no clause
    matches [e], which then propagates. *)
Definition try_except {A} (body : M A) (handler : exn → option (M A)) : M A :=
  λ tr, match body tr with
        | (Return a, tr') => (Return a, tr')
        | (Raise e, tr') =>
            match handler e with
            | Some h => h tr'
            | None => (Raise e, tr')
            end
        end.

(** [except Exception as e: h]: every exception of the model is caught. *)
Definition except_Exception {A} (h : exn → M A) : exn → option (M A) :=
  λ e, Some (h e).

(** ** The outside world *)

(** [httpx.Response], as far as the code reads it. *)
Record Response := { status_code_of : Z; text_of : string }.

(** [response.is_success]: the 2xx range. *)
Definition is_success (r : Response) : bool :=
  (200 <=? status_code_of r) && (status_code_of r <=? 299).

(** [response.raise_for_status()] of httpx 0.20 and later (the versions
    that have [follow_redirects]): raises for every status outside 2xx. *)
Definition raise_for_status (url : string) (r : Response) : M unit :=
  if is_success r then ret tt
  else raise (HTTPStatusError (status_code_of r)
                ("HTTP status " +:+ pretty (status_code_of r) +:+ " for url " +:+ url)).

(** The Gemini client: [generate_content_async] answers or raises, and
    reading [response.text] of an answer gives text or raises. *)
Record GenerativeModel := {
  generate_content_async : string → outcome (outcome string)
}.

(** The OpenAI client: [chat.completions.create] answers with a list of
    choices or raises.  A choice is reduced to its [message.content],
    which the client types [Optional[str]]: a string or [None]. *)
Record AsyncOpenAI := {
  chat_completions_create : string → string → string → outcome (list pyval)
}.

Record world := {
  (** What [client.get(url)] ends in, redirects followed. *)
  http_get : string → outcome Response;
  (** The module-level globals set at start-up. *)
  api_keys : option (gmap string string);
  gemini_model : option GenerativeModel;
  openai_client : option AsyncOpenAI
}.

(** ** Section 3 of main.py: fetch and adapters *)

Definition status_error_message (code : Z) : string :=
  "Failed to fetch content (Status: " +:+ pretty code +:+ "). Site may be down.".

Definition transport_error_message : string :=
  "Could not retrieve website content. The site might be offline or unreachable.".

Definition fetch_website_content (w : world) (url : string) : M string :=
  try_except
    (run emit (HttpGet url);
     do response <- lift (http_get w url);
     run raise_for_status url response;
     ret (text_of response))
    (λ e, match e with
          | HTTPStatusError code _ =>
              Some (raise (Exception (status_error_message code)))
          | RequestError _ _ =>
              Some (raise (Exception transport_error_message))
          | _ => None
          end).

Definition analyze_with_gemini (w : world) (user_prompt system_prompt : string)
  : M pyval :=
  match gemini_model w with
  | None => ret (PStr "Error: Gemini model is not configured or API key is missing.")
  | Some model =>
      try_except
        (let full_prompt := system_prompt +:+ "

---

" +:+ user_prompt in
         run emit (GeminiGenerate full_prompt);
         do response <- lift (generate_content_async model full_prompt);
         do text <- lift response;
         ret (PStr text))
        (except_Exception
           (λ e, ret (PStr ("Error during Gemini analysis: " +:+ str e))))
  end.

Definition analyze_with_openai (w : world) (user_prompt system_prompt : string)
  : M pyval :=
  match openai_client w with
  | None => ret (PStr "Error: OpenAI client is not configured or API key is missing.")
  | Some client =>
      try_except
        (run emit (OpenAICreate "gpt-4o-mini" system_prompt user_prompt);
         do choices <- lift (chat_completions_create client "gpt-4o-mini"
                               system_prompt user_prompt);
         match choices !! 0%nat with
         | Some content => ret content
         | None => raise IndexError
         end)
        (except_Exception
           (λ e, ret (PStr ("Error during OpenAI analysis: " +:+ str e))))
  end.

(** ** Section 4 of main.py: the request path *)

(** [x in [a, b]] for a value that is a string or [None]. *)
Definition py_in (x : option string) (l : list string) : bool :=
  match x with
  | Some s => bool_decide (s ∈ l)
  | None => false
  end.

(** [source_code[:15000]] and the f-string built from it. *)
Definition MAX_CHARS : nat := Z.to_nat 15000.

Definition truncated_source_code (source_code : string) : string :=
  String.substring 0 MAX_CHARS source_code.

Definition user_prompt (url source_code : string) : string :=
  "URL: " +:+ url +:+ "

SOURCE CODE (first 15,000 characters):
" +:+ truncated_source_code source_code.

(** [asyncio.gather] with [return_exceptions=True]: every task runs to
    its end, and a task that raised contributes its exception as a value.
    The tasks are run in list order; each of them makes one backend call
    whose reply depends on its own arguments only. *)
Fixpoint gather {A} (tasks : list (M A)) : M (list (outcome A)) :=
  match tasks with
  | [] => ret []
  | t :: ts =>
      λ tr, let '(r, tr1) := t tr in
            match gather ts tr1 with
            | (Return rs, tr2) => (Return (r :: rs), tr2)
            | (Raise e, tr2) => (Raise e, tr2)
            end
  end.

(** [results[i]]; out of range raises [IndexError]. *)
Definition index {A} (l : list A) (i : nat) : M A :=
  match l !! i with
  | Some x => ret x
  | None => raise IndexError
  end.

(** The value stored for one provider: [f"Error: {r}"] for an exception
    object, the result itself otherwise. *)
Definition entry_of (r : outcome pyval) : pyval :=
  match r with
  | Raise e => PStr ("Error: " +:+ str e)
  | Return v => v
  end.

Definition selects_gemini (ai_choice : option string) : bool :=
  py_in ai_choice ["gemini"; "both"].
Definition selects_chatgpt (ai_choice : option string) : bool :=
  py_in ai_choice ["chatgpt"; "both"].

(** The list [tasks] that [perform_analysis] hands to [gather]. *)
Definition tasks (w : world) (ai_choice : option string)
    (user_prompt system_prompt : string) : list (M pyval) :=
  let tasks : list (M pyval) := [] in
  let tasks := if selects_gemini ai_choice
               then tasks ++ [analyze_with_gemini w user_prompt system_prompt]
               else tasks in
  let tasks := if selects_chatgpt ai_choice
               then tasks ++ [analyze_with_openai w user_prompt system_prompt]
               else tasks in
  tasks.

Definition perform_analysis (w : world) (url : string)
    (ai_choice : option string) (system_prompt : string)
  : M (gmap string pyval * Z) :=
  do fetched <- try_except
      (do source_code <- fetch_website_content w url;
       ret (inl (user_prompt url source_code)))
      (except_Exception (λ e, ret (inr ({["error" := PStr (str e)]}, 400))));
  match fetched with
  | inr early => ret early
  | inl user_prompt =>
      do results <- gather (tasks w ai_choice user_prompt system_prompt);
      let response_data : gmap string pyval := ∅ in
      let result_index := 0%nat in
      do '(response_data, result_index) <-
        (if selects_gemini ai_choice then
           do r <- index results result_index;
           ret (<["gemini" := entry_of r]> response_data, S result_index)
         else ret (response_data, result_index));
      do response_data <-
        (if selects_chatgpt ai_choice then
           do r <- index results result_index;
           ret (<["chatgpt" := entry_of r]> response_data)
         else ret response_data);
      ret (response_data, 200)
  end.

Definition AI_SYSTEM_PROMPT : string := "
You are an expert cybersecurity analyst specializing in phishing detection.
Your task is to analyze a given URL and its HTML source code to determine if it is a phishing website or a safe website.
Provide a clear one-word verdict: 'Safe' or 'Phishing'.
Then, provide a concise, one-paragraph explanation for your reasoning.
Format your response as:
Verdict: [Safe/Phishing]
Reasoning: [Your one-paragraph explanation]
".

(** The body of the POST request as [request.get_json()] sees it: the
    call raises, or gives a JSON object (its string fields; a field that
    is absent or null reads as [None]) or some other JSON value, which
    has no [get]. *)
Inductive json_body :=
| JsonObject (data : gmap string string)
| JsonOther.

Record flask_request := { get_json : outcome json_body }.

(** [data.get(key)]. *)
Definition data_get (data : json_body) (key : string) : M (option string) :=
  match data with
  | JsonObject d => ret (d !! key)
  | JsonOther => raise (AttributeError "object has no attribute 'get'")
  end.

(** Truth value of the globals: a dict is true when it is not empty, a
    client object is always true, [None] is false.  For [url], [None]
    and the empty string are false ([if not url]). *)
Definition truthy_dict (d : option (gmap string string)) : bool :=
  match d with
  | Some m => bool_decide (m ≠ ∅)
  | None => false
  end.

Definition not_configured (w : world) : bool :=
  negb (truthy_dict (api_keys w))
  || (negb (bool_decide (is_Some (gemini_model w)))
      && negb (bool_decide (is_Some (openai_client w)))).

(** The route [/analyze]: the JSON body and the HTTP status it answers. *)
Definition analyze (w : world) (request : flask_request)
  : M (gmap string pyval * Z) :=
  if not_configured w then
    ret ({["error" := PStr "Server is not configured with at least one valid API key."]}, 500)
  else
    try_except
      (do data <- lift (get_json request);
       do url <- data_get data "url";
       do ai_choice <- data_get data "ai_choice";
       match url with
       | Some url =>
           if bool_decide (url = "") then
             ret ({["error" := PStr "URL is required."]}, 400)
           else
             let system_prompt := AI_SYSTEM_PROMPT in
             do '(response_data, status_code) <-
               perform_analysis w url ai_choice system_prompt;
             ret (response_data, status_code)
       | None => ret ({["error" := PStr "URL is required."]}, 400)
       end)
      (except_Exception (λ e,
         ret ({["error" := PStr "An internal server error occurred."]}, 500))).

(** ** The page's script: [formatResult]

    The two regular expressions of [formatResult] are run by a small
    backtracking matcher in the style of the ECMAScript specification:
    a matcher takes the rest of the input and a continuation, and a
    failed continuation makes the matcher try its next alternative.
    Both expressions carry the flag [i]. *)
Module Page.

(** Characters are code units below 256.  [\s] and [trim] agree on what
    white space is: TAB, LF, VT, FF, CR, space and NBSP in this range. *)
Definition is_space (c : ascii) : bool :=
  let n := N_of_ascii c in
  ((9 <=? n) && (n <=? 13) || (n =? 32) || (n =? 160))%N.

(** [Canonicalize] under the flag [i]: the upper-case form.  The two
    patterns hold ASCII characters only, and no character from 128 on
    canonicalizes to an ASCII one, so only [a]-[z] need folding. *)
Definition canonicalize (c : ascii) : ascii :=
  let n := N_of_ascii c in
  if ((97 <=? n) && (n <=? 122))%N then ascii_of_N (n - 32) else c.

(** [toLowerCase] on code units below 256. *)
Definition lower_char (c : ascii) : ascii :=
  let n := N_of_ascii c in
  if ((65 <=? n) && (n <=? 90) || (192 <=? n) && (n <=? 222) && negb (n =? 215))%N
  then ascii_of_N (n + 32) else c.

Fixpoint toLowerCase (s : string) : string :=
  match s with
  | EmptyString => EmptyString
  | String c s' => String (lower_char c) (toLowerCase s')
  end.

Definition startsWith (text p : string) : bool := String.prefix p text.

Fixpoint trimStart (s : string) : string :=
  match s with
  | EmptyString => EmptyString
  | String c s' => if is_space c then trimStart s' else s
  end.

Fixpoint trimEnd (s : string) : string :=
  match s with
  | EmptyString => EmptyString
  | String c s' =>
      match trimEnd s' with
      | EmptyString => if is_space c then EmptyString else String c EmptyString
      | t => String c t
      end
  end.

Definition trim (s : string) : string := trimEnd (trimStart s).

Inductive atom :=
| Chr (c : ascii)
| Space
| AnyChar.

Inductive regex :=
| Empty
| Atom (a : atom)
| Cat (r1 r2 : regex)
| Alt (r1 r2 : regex)
| Star (a : atom)
| Group (r : regex).

Definition atom_matches (a : atom) (c : ascii) : bool :=
  match a with
  | Chr p => bool_decide (canonicalize p = canonicalize c)
  | Space => is_space c
  | AnyChar => true
  end.

(** The state of a match: what group 1 captured so far, and the input
    still to read. *)
Definition continuation : Type := option string → string → option (option string).

(** Greedy [a*]: take one more character first, give it back when the
    continuation fails. *)
Fixpoint star (a : atom) (s : string) (k : string → option (option string))
  : option (option string) :=
  match s with
  | String c s' =>
      if atom_matches a c then
        match star a s' k with
        | Some r => Some r
        | None => k s
        end
      else k s
  | EmptyString => k s
  end.

(** What was read between input [s] and its suffix [s']. *)
Definition consumed (s s' : string) : string :=
  String.substring 0 (String.length s - String.length s') s.

Fixpoint matcher (r : regex) (cap : option string) (s : string)
    (k : continuation) : option (option string) :=
  match r with
  | Empty => k cap s
  | Atom a =>
      match s with
      | String c s' => if atom_matches a c then k cap s' else None
      | EmptyString => None
      end
  | Cat r1 r2 => matcher r1 cap s (λ cap' s', matcher r2 cap' s' k)
  | Alt r1 r2 =>
      match matcher r1 cap s k with
      | Some x => Some x
      | None => matcher r2 cap s k
      end
  | Star a => star a s (k cap)
  | Group r => matcher r cap s (λ _ s', k (Some (consumed s s')) s')
  end.

(** [text.match(r)] for a regular expression without the flag [g]: the
    match at the leftmost position that has one; the result is group 1
    of that match, [None] standing for JavaScript's [null]. *)
Fixpoint match_ (r : regex) (text : string) : option (option string) :=
  match matcher r None text (λ cap _, Some cap) with
  | Some cap => Some cap
  | None =>
      match text with
      | String _ text' => match_ r text'
      | EmptyString => None
      end
  end.

Fixpoint lit (p : string) : regex :=
  match p with
  | EmptyString => Empty
  | String c p' => Cat (Atom (Chr c)) (lit p')
  end.

(** [/Verdict:\s*(Safe|Phishing)/i] *)
Definition verdict_re : regex :=
  Cat (lit "Verdict:") (Cat (Star Space) (Group (Alt (lit "Safe") (lit "Phishing")))).

(** [/Reasoning:\s*(G)/i], the group [G] being [[\s\S]] starred. *)
Definition reasoning_re : regex :=
  Cat (lit "Reasoning:") (Cat (Star Space) (Group (Star AnyChar))).

Definition verdictMatch (text : string) : option (option string) :=
  match_ verdict_re text.
Definition reasoningMatch (text : string) : option (option string) :=
  match_ reasoning_re text.

(** The variables of [formatResult] after its two [if]s.  A group that
    did not take part reads as [undefined]; both groups always do. *)
Definition verdict (text : string) : string :=
  match verdictMatch text with
  | Some (Some v) => v
  | Some None => "undefined"
  | None => "Unknown"
  end.

Definition verdictClass (text : string) : string :=
  match verdictMatch text with
  | Some _ =>
      let verdictClass := "" in
      let verdictClass :=
        if bool_decide (toLowerCase (verdict text) = "safe")
        then "verdict-safe" else verdictClass in
      let verdictClass :=
        if bool_decide (toLowerCase (verdict text) = "phishing")
        then "verdict-phishing" else verdictClass in
      verdictClass
  | None => ""
  end.

Definition reasoning (text : string) : string :=
  match reasoningMatch text with
  | Some (Some r) => trim r
  | Some None => "undefined"
  | None => text
  end.

Definition dq : string := String "034"%char EmptyString.

Definition error_html (text : string) : string :=
  "<p class=" +:+ dq +:+ "text-red-400" +:+ dq +:+ ">" +:+ text +:+ "</p>".

Definition card_html (verdictClass verdict reasoning : string) : string :=
  "
                <p class=" +:+ dq +:+ "text-lg font-medium" +:+ dq
  +:+ "><strong>Verdict: <span class=" +:+ dq +:+ verdictClass +:+ dq +:+ ">"
  +:+ verdict +:+ "</span></strong></p>
                <p class=" +:+ dq +:+ "text-sm text-gray-300" +:+ dq +:+ ">"
  +:+ reasoning +:+ "</p>
            ".

Definition formatResult (text : string) : string :=
  if startsWith text "Error:" then error_html text
  else card_html (verdictClass text) (verdict text) (reasoning text).

(** *** Reading the two expressions directly

    What each expression finds when tried at the start of [s]. *)

Fixpoint skip (n : nat) (s : string) : string :=
  match n, s with
  | O, _ => s
  | S n', String _ s' => skip n' s'
  | S _, EmptyString => EmptyString
  end.

Definition take (n : nat) (s : string) : string := String.substring 0 n s.

(** [s] starts with [p], up to the case of letters. *)
Fixpoint ci_prefix (p s : string) : bool :=
  match p, s with
  | EmptyString, _ => true
  | String a p', String c s' => atom_matches (Chr a) c && ci_prefix p' s'
  | String _ _, EmptyString => false
  end.

Definition verdict_at (s : string) : option string :=
  if ci_prefix "Verdict:" s then
    let s' := trimStart (skip 8 s) in
    if ci_prefix "Safe" s' then Some (take 4 s')
    else if ci_prefix "Phishing" s' then Some (take 8 s')
    else None
  else None.


(** *** What a text contains *)

Fixpoint upper (s : string) : string :=
  match s with
  | EmptyString => EmptyString
  | String c s' => String (canonicalize c) (upper s')
  end.

(** Equal up to the case of letters. *)
Definition ci_eq (a b : string) : Prop := upper a = upper b.

(** An upper-case ASCII letter. *)
Definition is_capital (c : ascii) : bool :=
  ((65 <=? N_of_ascii c) && (N_of_ascii c <=? 90))%N.

Fixpoint all_capital (s : string) : bool :=
  match s with
  | EmptyString => true
  | String c s' => is_capital c && all_capital s'
  end.

Fixpoint all_space (s : string) : bool :=
  match s with
  | EmptyString => true
  | String c s' => is_space c && all_space s'
  end.

(** At offset [i] the text reads [Verdict:], white space, and the word
    [w], which is [Safe] or [Phishing] in some casing. *)
Definition verdict_occurs (text : string) (i : nat) (w : string) : Prop :=
  ∃ pre m ws post,
    text = pre +:+ m +:+ ws +:+ w +:+ post
    ∧ String.length pre = i
    ∧ ci_eq m "Verdict:"
    ∧ all_space ws = true
    ∧ (ci_eq w "Safe" ∨ ci_eq w "Phishing").


End Page.

(** ** What a request does, read off the world

    Closed forms of the fetch, of the two adapters and of the merge;
    the run lemmas below relate them to the code. *)

(** What the fetch ends in, read off the answer of the network. *)
Definition fetch_outcome (w : world) (url : string) : outcome string :=
  match http_get w url with
  | Return r =>
      if is_success r then Return (text_of r)
      else Raise (Exception (status_error_message (status_code_of r)))
  | Raise (HTTPStatusError code _) => Raise (Exception (status_error_message code))
  | Raise (RequestError _ _) => Raise (Exception transport_error_message)
  | Raise e => Raise e
  end.

(** What [analyze_with_gemini] sends to its backend. *)
Definition gemini_full_prompt (user_prompt system_prompt : string) : string :=
  system_prompt +:+ "

---

" +:+ user_prompt.

(** What each adapter returns and which call it makes. *)
Definition gemini_value (w : world) (user_prompt system_prompt : string) : string :=
  match gemini_model w with
  | None => "Error: Gemini model is not configured or API key is missing."
  | Some model =>
      match generate_content_async model (gemini_full_prompt user_prompt system_prompt) with
      | Return (Return text) => text
      | Return (Raise e) | Raise e => "Error during Gemini analysis: " +:+ str e
      end
  end.

Definition gemini_calls (w : world) (user_prompt system_prompt : string) : list event :=
  match gemini_model w with
  | None => []
  | Some _ => [GeminiGenerate (gemini_full_prompt user_prompt system_prompt)]
  end.

Definition openai_value (w : world) (user_prompt system_prompt : string) : pyval :=
  match openai_client w with
  | None => PStr "Error: OpenAI client is not configured or API key is missing."
  | Some client =>
      match chat_completions_create client "gpt-4o-mini" system_prompt user_prompt with
      | Return (content :: _) => content
      | Return [] => PStr ("Error during OpenAI analysis: " +:+ str IndexError)
      | Raise e => PStr ("Error during OpenAI analysis: " +:+ str e)
      end
  end.

Definition openai_calls (w : world) (user_prompt system_prompt : string) : list event :=
  match openai_client w with
  | None => []
  | Some _ => [OpenAICreate "gpt-4o-mini" system_prompt user_prompt]
  end.

(** The response and the calls of a request whose fetch succeeded. *)
Definition merged (w : world) (ai_choice : option string)
    (p sys : string) : gmap string pyval :=
  let m : gmap string pyval := ∅ in
  let m := if selects_gemini ai_choice
           then <["gemini" := PStr (gemini_value w p sys)]> m else m in
  if selects_chatgpt ai_choice
  then <["chatgpt" := openai_value w p sys]> m else m.

Definition provider_calls (w : world) (ai_choice : option string)
    (p sys : string) : list event :=
  (if selects_gemini ai_choice then gemini_calls w p sys else [])
  ++ (if selects_chatgpt ai_choice then openai_calls w p sys else []).

(** A request is rejected before the fetch: it is answered with an error
    status and no GET was made. *)
Definition rejected_before_fetch (w : world) (request : flask_request) : Prop :=
  ∃ body status tr',
    analyze w request [] = (Return (body, status), tr')
    ∧ 400 ≤ status
    ∧ ∀ url, HttpGet url ∉ tr'.

(** A world and a request to run the model on. *)
Definition world_ok : world := {|
  http_get := λ _, Return {| status_code_of := 200; text_of := "<html>ok</html>" |};
  api_keys := Some {["GEMINI_API" := "key"]};
  gemini_model :=
    Some {| generate_content_async := λ _, Return (Return "Verdict: Safe
Reasoning: Looks fine.") |};
  openai_client := None
|}.

(** The page answers 404. *)
Definition world_404 : world := {|
  http_get := λ _, Return {| status_code_of := 404; text_of := "not found" |};
  api_keys := api_keys world_ok;
  gemini_model := gemini_model world_ok;
  openai_client := openai_client world_ok
|}.

(** The site cannot be reached. *)
Definition world_offline : world := {|
  http_get := λ _, Raise (RequestError DnsFailure "Name or service not known");
  api_keys := api_keys world_ok;
  gemini_model := gemini_model world_ok;
  openai_client := openai_client world_ok
|}.

(** Both clients configured; Gemini's backend raises, OpenAI's answers. *)
Definition world_gemini_down : world := {|
  http_get := http_get world_ok;
  api_keys := Some (<["GEMINI_API" := "key"]> {["CHATGPT_API" := "key"]});
  gemini_model :=
    Some {| generate_content_async := λ _, Raise (Exception "503 unavailable") |};
  openai_client :=
    Some {| chat_completions_create := λ _ _ _,
              Return [PStr "Verdict: Phishing
Reasoning: Suspicious form."] |}
|}.

(** Both clients configured; OpenAI's backend raises, Gemini's answers. *)
Definition world_openai_down : world := {|
  http_get := http_get world_ok;
  api_keys := api_keys world_gemini_down;
  gemini_model := gemini_model world_ok;
  openai_client :=
    Some {| chat_completions_create := λ _ _ _, Raise (Exception "rate limit") |}
|}.

(** Both clients configured and both backends answer. *)
Definition world_both_up : world := {|
  http_get := http_get world_ok;
  api_keys := api_keys world_gemini_down;
  gemini_model := gemini_model world_ok;
  openai_client := openai_client world_gemini_down
|}.

(** OpenAI answers with a choice whose [message.content] is [None]. *)
Definition world_content_none : world := {|
  http_get := http_get world_ok;
  api_keys := api_keys world_gemini_down;
  gemini_model := gemini_model world_ok;
  openai_client :=
    Some {| chat_completions_create := λ _ _ _, Return [PNone] |}
|}.

(** No key file: nothing is configured. *)
Definition world_unconfigured : world := {|
  http_get := http_get world_ok;
  api_keys := None;
  gemini_model := None;
  openai_client := None
|}.

Definition request_of (url ai_choice : string) : flask_request :=
  {| get_json := Return (JsonObject (<["url" := url]> (<["ai_choice" := ai_choice]> ∅))) |}.

(** ** Sections 1 and 2 of main.py: the key file and the clients *)

(** White space as [str.strip] sees it, for characters below 256. *)
Definition py_isspace (c : ascii) : bool :=
  let n := N_of_ascii c in
  ((9 <=? n) && (n <=? 13) || (28 <=? n) && (n <=? 32)
   || (n =? 133) || (n =? 160))%N.

Fixpoint lstrip (s : string) : string :=
  match s with
  | EmptyString => EmptyString
  | String c s' => if py_isspace c then lstrip s' else s
  end.

Fixpoint rstrip (s : string) : string :=
  match s with
  | EmptyString => EmptyString
  | String c s' =>
      match rstrip s' with
      | EmptyString => if py_isspace c then EmptyString else String c EmptyString
      | t => String c t
      end
  end.

(** [s.strip()] *)
Definition strip (s : string) : string := rstrip (lstrip s).

(** [s.startswith(p)] *)
Definition startswith (s p : string) : bool := String.prefix p s.

(** [line.split('=', 1)] unpacked into two names: the parts before and
    after the first [=]; [None] stands for the [ValueError] of unpacking
    a list of one element. *)
Fixpoint split_eq (line : string) : option (string * string) :=
  match line with
  | EmptyString => None
  | String c rest =>
      if bool_decide (c = "="%char) then Some (EmptyString, rest)
      else match split_eq rest with
           | Some (key, value) => Some (String c key, value)
           | None => None
           end
  end.

(** What opening and reading the key file ends in; [KeyLines] holds the
    lines that iterating over the file yields. *)
Inductive key_file :=
| NoSuchFile
| Unreadable (e : exn)
| KeyLines (lines : list string).

(** The body of the loop of [load_api_keys]: the dict after one line. *)
Definition read_line (keys : gmap string string) (line : string)
  : gmap string string :=
  let line := strip line in
  if bool_decide (line = "") || startswith line "#" then keys
  else
    match split_eq line with
    | Some (key, value) => <[strip key := strip value]> keys
    | None => keys
    end.

Definition load_api_keys (file : key_file) : option (gmap string string) :=
  match file with
  | NoSuchFile => None
  | Unreadable _ => None
  | KeyLines lines =>
      let keys := foldl read_line ∅ lines in
      if negb (bool_decide (is_Some (keys !! "GEMINI_API")))
         && negb (bool_decide (is_Some (keys !! "CHATGPT_API")))
      then None
      else Some keys
  end.

(** A line holds the character [=]. *)
Fixpoint has_eq (s : string) : bool :=
  match s with
  | EmptyString => false
  | String c s' => bool_decide (c = "="%char) || has_eq s'
  end.

Fixpoint all_py_space (s : string) : bool :=
  match s with
  | EmptyString => true
  | String c s' => py_isspace c && all_py_space s'
  end.

(** The entry a line of the key file stands for, if any. *)
Definition assignment (line : string) : option (string * string) :=
  let line := strip line in
  if bool_decide (line = "") || startswith line "#" then None
  else
    match split_eq line with
    | Some (key, value) => Some (strip key, strip value)
    | None => None
    end.

(** The two client libraries at start-up: [genai.configure] followed by
    [genai.GenerativeModel], and [openai.AsyncOpenAI], each given the
    key; either may raise. *)
Record client_libraries := {
  new_gemini_model : string → outcome GenerativeModel;
  new_openai_client : string → outcome AsyncOpenAI
}.

(** Section 2: the globals after the module is loaded. *)
Definition configure_clients (libs : client_libraries)
    (net : string → outcome Response) (file : key_file) : world :=
  let api_keys := load_api_keys file in
  if truthy_dict api_keys then
    let keys := default ∅ api_keys in
    {| http_get := net;
       api_keys := api_keys;
       gemini_model :=
         match keys !! "GEMINI_API" with
         | Some key =>
             match new_gemini_model libs key with
             | Return model => Some model
             | Raise _ => None
             end
         | None => None
         end;
       openai_client :=
         match keys !! "CHATGPT_API" with
         | Some key =>
             match new_openai_client libs key with
             | Return client => Some client
             | Raise _ => None
             end
         | None => None
         end |}
  else
    {| http_get := net; api_keys := api_keys;
       gemini_model := None; openai_client := None |}.

(** The value [print_cli_banner] returns; the server is started exactly
    when it is [true]. *)
Definition print_cli_banner (w : world) : bool :=
  if negb (truthy_dict (api_keys w))
     || (negb (bool_decide (is_Some (gemini_model w)))
         && negb (bool_decide (is_Some (openai_client w))))
  then false
  else true.

(** ** The page's script: the submit handler *)
Module Form.

(** A promise that resolved, or an exception with its [message]. *)
Inductive js_result (A : Type) :=
| Resolved (a : A)
| Thrown (message : string).
Arguments Resolved {A} a.
Arguments Thrown {A} message.

(** The answer to [fetch('/analyze', ...)]: [response.ok] and what
    [response.json()] gives. *)
Record fetch_response := {
  ok : bool;
  json : js_result (gmap string pyval)
}.

(** The elements the handler touches.  For the spinner both classes it
    toggles are kept. *)
Record ui := {
  checkButton_disabled : bool;
  checkButton_textContent : string;
  loadingSpinner_hidden : bool;
  loadingSpinner_flex : bool;
  resultsContainer_hidden : bool;
  errorMessage_hidden : bool;
  errorMessage_textContent : string;
  geminiCard_hidden : bool;
  geminiResult_innerHTML : string;
  chatgptCard_hidden : bool;
  chatgptResult_innerHTML : string
}.

(** The statements under [// Reset UI]. *)
Definition reset_ui (u : ui) : ui :=
  {| checkButton_disabled := true;
     checkButton_textContent := "Analyzing...";
     loadingSpinner_hidden := false;
     loadingSpinner_flex := true;
     resultsContainer_hidden := true;
     errorMessage_hidden := true;
     errorMessage_textContent := errorMessage_textContent u;
     geminiCard_hidden := true;
     geminiResult_innerHTML := geminiResult_innerHTML u;
     chatgptCard_hidden := true;
     chatgptResult_innerHTML := chatgptResult_innerHTML u |}.

(** Truth value of a field of a JSON object whose fields are strings or
    [null]: a missing field, [null] and the empty string are false. *)
Definition truthy (field : option pyval) : bool :=
  match field with
  | Some (PStr s) => negb (bool_decide (s = ""))
  | Some PNone => false
  | None => false
  end.

(** The string a true field holds. *)
Definition text_of (field : option pyval) : string :=
  match field with
  | Some (PStr s) => s
  | _ => ""
  end.

Definition show_gemini (data : gmap string pyval) (u : ui) : ui :=
  match data !! "gemini" with
  | Some (PStr text) =>
      if truthy (Some (PStr text)) then
        {| checkButton_disabled := checkButton_disabled u;
           checkButton_textContent := checkButton_textContent u;
           loadingSpinner_hidden := loadingSpinner_hidden u;
           loadingSpinner_flex := loadingSpinner_flex u;
           resultsContainer_hidden := resultsContainer_hidden u;
           errorMessage_hidden := errorMessage_hidden u;
           errorMessage_textContent := errorMessage_textContent u;
           geminiCard_hidden := false;
           geminiResult_innerHTML := Page.formatResult text;
           chatgptCard_hidden := chatgptCard_hidden u;
           chatgptResult_innerHTML := chatgptResult_innerHTML u |}
      else u
  | _ => u
  end.

Definition show_chatgpt (data : gmap string pyval) (u : ui) : ui :=
  match data !! "chatgpt" with
  | Some (PStr text) =>
      if truthy (Some (PStr text)) then
        {| checkButton_disabled := checkButton_disabled u;
           checkButton_textContent := checkButton_textContent u;
           loadingSpinner_hidden := loadingSpinner_hidden u;
           loadingSpinner_flex := loadingSpinner_flex u;
           resultsContainer_hidden := resultsContainer_hidden u;
           errorMessage_hidden := errorMessage_hidden u;
           errorMessage_textContent := errorMessage_textContent u;
           geminiCard_hidden := geminiCard_hidden u;
           geminiResult_innerHTML := geminiResult_innerHTML u;
           chatgptCard_hidden := false;
           chatgptResult_innerHTML := Page.formatResult text |}
      else u
  | _ => u
  end.

Definition show_results (u : ui) : ui :=
  {| checkButton_disabled := checkButton_disabled u;
     checkButton_textContent := checkButton_textContent u;
     loadingSpinner_hidden := loadingSpinner_hidden u;
     loadingSpinner_flex := loadingSpinner_flex u;
     resultsContainer_hidden := false;
     errorMessage_hidden := errorMessage_hidden u;
     errorMessage_textContent := errorMessage_textContent u;
     geminiCard_hidden := geminiCard_hidden u;
     geminiResult_innerHTML := geminiResult_innerHTML u;
     chatgptCard_hidden := chatgptCard_hidden u;
     chatgptResult_innerHTML := chatgptResult_innerHTML u |}.

(** The [try] block: the page after it, and the exception it threw if
    any. *)
Definition try_block (response : js_result fetch_response) (u : ui)
  : ui * js_result unit :=
  match response with
  | Thrown message => (u, Thrown message)
  | Resolved response =>
      if negb (ok response) then
        match json response with
        | Thrown message => (u, Thrown message)
        | Resolved errData =>
            (u, Thrown (if truthy (errData !! "error")
                        then text_of (errData !! "error")
                        else "An unknown server error occurred."))
        end
      else
        match json response with
        | Thrown message => (u, Thrown message)
        | Resolved data =>
            (show_results (show_chatgpt data (show_gemini data u)), Resolved tt)
        end
  end.

(** The [catch] block. *)
Definition catch_block (message : string) (u : ui) : ui :=
  {| checkButton_disabled := checkButton_disabled u;
     checkButton_textContent := checkButton_textContent u;
     loadingSpinner_hidden := loadingSpinner_hidden u;
     loadingSpinner_flex := loadingSpinner_flex u;
     resultsContainer_hidden := resultsContainer_hidden u;
     errorMessage_hidden := false;
     errorMessage_textContent := message;
     geminiCard_hidden := geminiCard_hidden u;
     geminiResult_innerHTML := geminiResult_innerHTML u;
     chatgptCard_hidden := chatgptCard_hidden u;
     chatgptResult_innerHTML := chatgptResult_innerHTML u |}.

(** The [finally] block. *)
Definition finally_block (u : ui) : ui :=
  {| checkButton_disabled := false;
     checkButton_textContent := "Analyze";
     loadingSpinner_hidden := true;
     loadingSpinner_flex := false;
     resultsContainer_hidden := resultsContainer_hidden u;
     errorMessage_hidden := errorMessage_hidden u;
     errorMessage_textContent := errorMessage_textContent u;
     geminiCard_hidden := geminiCard_hidden u;
     geminiResult_innerHTML := geminiResult_innerHTML u;
     chatgptCard_hidden := chatgptCard_hidden u;
     chatgptResult_innerHTML := chatgptResult_innerHTML u |}.

(** The submit handler, from the reset to the end of [finally], given
    what the request to [/analyze] ended in. *)
Definition on_submit (response : js_result fetch_response) (u : ui) : ui :=
  let u := reset_ui u in
  match try_block response u with
  | (u, Resolved _) => finally_block u
  | (u, Thrown message) => finally_block (catch_block message u)
  end.

(** The response the browser receives for an answer of the route:
    [jsonify(body), status]. *)
Definition response_of (body : gmap string pyval) (status : Z)
  : js_result fetch_response :=
  Resolved {| ok := (200 <=? status) && (status <=? 299);
              json := Resolved body |}.

End Form.

(** ** A text as a reader sees it

    What it means for a text to hold a verdict or a reasoning, and for
    a string to be another one trimmed, said without the matcher: the
    letters are paired by a table, white space is a list of characters,
    trimming is described by what is cut off. *)
Module Reader.















End Reader.

(** * Properties *)

(** ** Running the monad *)

Ltac run_monad :=
  unfold bind, ret, raise, emit, lift, try_except, except_Exception, index;
  simpl.

Lemma fetch_website_content_run w url tr :
  fetch_website_content w url tr = (fetch_outcome w url, tr ++ [HttpGet url]).
Proof.
  unfold fetch_website_content, fetch_outcome, raise_for_status. run_monad.
  destruct (http_get w url) as [r|e]; simpl.
  - destruct (is_success r); reflexivity.
  - destruct e; reflexivity.
Qed.

Lemma fetch_succeeded w url tr source_code tr0 :
  fetch_website_content w url tr = (Return source_code, tr0) →
  fetch_outcome w url = Return source_code ∧ tr0 = tr ++ [HttpGet url].
Proof. rewrite fetch_website_content_run. by intros [= -> ->]. Qed.

Lemma fetch_failed w url tr e tr0 :
  fetch_website_content w url tr = (Raise e, tr0) →
  fetch_outcome w url = Raise e ∧ tr0 = tr ++ [HttpGet url].
Proof. rewrite fetch_website_content_run. by intros [= -> ->]. Qed.

Lemma analyze_with_gemini_run w p sys tr :
  analyze_with_gemini w p sys tr
  = (Return (PStr (gemini_value w p sys)), tr ++ gemini_calls w p sys).
Proof.
  unfold analyze_with_gemini, gemini_value, gemini_calls, gemini_full_prompt.
  destruct (gemini_model w) as [model|]; run_monad.
  - destruct (generate_content_async model _) as [[text|e]|e]; reflexivity.
  - by rewrite app_nil_r.
Qed.

Lemma analyze_with_openai_run w p sys tr :
  analyze_with_openai w p sys tr
  = (Return (openai_value w p sys), tr ++ openai_calls w p sys).
Proof.
  unfold analyze_with_openai, openai_value, openai_calls.
  destruct (openai_client w) as [client|]; run_monad.
  - destruct (chat_completions_create client _ _ _) as [[|content rest]|e];
      reflexivity.
  - by rewrite app_nil_r.
Qed.

Lemma selects_gemini_iff ai_choice :
  selects_gemini ai_choice = true
  ↔ ai_choice = Some "gemini" ∨ ai_choice = Some "both".
Proof.
  unfold selects_gemini, py_in. destruct ai_choice as [s|].
  - rewrite bool_decide_eq_true, !elem_of_cons, elem_of_nil.
    split; [intros [->|[->|[]]]; auto | intros [[= ->]|[= ->]]; auto].
  - split; [discriminate | intros [|]; discriminate].
Qed.

Lemma selects_chatgpt_iff ai_choice :
  selects_chatgpt ai_choice = true
  ↔ ai_choice = Some "chatgpt" ∨ ai_choice = Some "both".
Proof.
  unfold selects_chatgpt, py_in. destruct ai_choice as [s|].
  - rewrite bool_decide_eq_true, !elem_of_cons, elem_of_nil.
    split; [intros [->|[->|[]]]; auto | intros [[= ->]|[= ->]]; auto].
  - split; [discriminate | intros [|]; discriminate].
Qed.

Lemma gather_tasks_run w ai_choice p sys tr :
  gather (tasks w ai_choice p sys) tr
  = (Return ((if selects_gemini ai_choice
              then [Return (PStr (gemini_value w p sys))] else [])
             ++ (if selects_chatgpt ai_choice
                 then [Return (openai_value w p sys)] else [])),
     tr ++ provider_calls w ai_choice p sys).
Proof.
  unfold tasks, provider_calls.
  destruct (selects_gemini ai_choice), (selects_chatgpt ai_choice); simpl;
    rewrite ?analyze_with_gemini_run, ?analyze_with_openai_run; simpl;
    rewrite ?analyze_with_openai_run; run_monad;
    by rewrite ?app_nil_r, ?app_assoc.
Qed.

(** The two tasks do not influence one another: run in the other order
    they return the same values, and the same calls are made. *)
Lemma gather_either_order w p sys tr :
  ∃ calls calls',
    gather [analyze_with_gemini w p sys; analyze_with_openai w p sys] tr
    = (Return [Return (PStr (gemini_value w p sys)); Return (openai_value w p sys)],
       tr ++ calls)
    ∧ gather [analyze_with_openai w p sys; analyze_with_gemini w p sys] tr
      = (Return [Return (openai_value w p sys); Return (PStr (gemini_value w p sys))],
         tr ++ calls')
    ∧ calls ≡ₚ calls'.
Proof.
  exists (gemini_calls w p sys ++ openai_calls w p sys),
         (openai_calls w p sys ++ gemini_calls w p sys).
  do 3 (simpl; rewrite ?analyze_with_gemini_run, ?analyze_with_openai_run).
  run_monad. rewrite <- !app_assoc.
  split; [done | split; [done | apply Permutation_app_comm]].
Qed.

Lemma perform_analysis_run w url ai_choice sys tr :
  perform_analysis w url ai_choice sys tr =
  match fetch_outcome w url with
  | Return source_code =>
      (Return (merged w ai_choice (user_prompt url source_code) sys, 200),
       tr ++ [HttpGet url]
          ++ provider_calls w ai_choice (user_prompt url source_code) sys)
  | Raise e => (Return ({["error" := PStr (str e)]}, 400), tr ++ [HttpGet url])
  end.
Proof.
  unfold perform_analysis, bind at 1, try_except, bind at 1.
  rewrite fetch_website_content_run.
  destruct (fetch_outcome w url) as [source_code|e]; [|reflexivity].
  unfold ret at 1. unfold bind at 1. rewrite gather_tasks_run.
  unfold merged.
  destruct (selects_gemini ai_choice), (selects_chatgpt ai_choice);
    run_monad; by rewrite <- ?app_assoc.
Qed.

Lemma analyze_run w request tr :
  analyze w request tr =
  if not_configured w then
    (Return ({["error" := PStr "Server is not configured with at least one valid API key."]}, 500), tr)
  else
    match get_json request with
    | Return (JsonObject d) =>
        match d !! "url" with
        | Some url =>
            if bool_decide (url = "")
            then (Return ({["error" := PStr "URL is required."]}, 400), tr)
            else perform_analysis w url (d !! "ai_choice") AI_SYSTEM_PROMPT tr
        | None => (Return ({["error" := PStr "URL is required."]}, 400), tr)
        end
    | _ => (Return ({["error" := PStr "An internal server error occurred."]}, 500), tr)
    end.
Proof.
  unfold analyze. destruct (not_configured w); [reflexivity|].
  unfold try_except, bind at 1, lift.
  destruct (get_json request) as [[d|]|e]; try reflexivity.
  unfold bind at 1, data_get at 1, ret at 1.
  unfold bind at 1, data_get at 1, ret at 1.
  destruct (d !! "url") as [url|]; [|reflexivity].
  destruct (bool_decide (url = "")); [reflexivity|].
  unfold bind. rewrite perform_analysis_run.
  by destruct (fetch_outcome w url).
Qed.

Lemma not_configured_no_provider w :
  gemini_model w = None → openai_client w = None → not_configured w = true.
Proof.
  unfold not_configured. intros -> ->. simpl. apply orb_true_r.
Qed.

Lemma merged_gemini w ai_choice p sys :
  merged w ai_choice p sys !! "gemini"
  = if selects_gemini ai_choice then Some (PStr (gemini_value w p sys)) else None.
Proof.
  unfold merged.
  destruct (selects_gemini ai_choice), (selects_chatgpt ai_choice);
    by simplify_map_eq.
Qed.

Lemma merged_chatgpt w ai_choice p sys :
  merged w ai_choice p sys !! "chatgpt"
  = if selects_chatgpt ai_choice then Some (openai_value w p sys) else None.
Proof.
  unfold merged.
  destruct (selects_gemini ai_choice), (selects_chatgpt ai_choice);
    by simplify_map_eq.
Qed.

Lemma merged_other w ai_choice p sys k :
  k ≠ "gemini" → k ≠ "chatgpt" → merged w ai_choice p sys !! k = None.
Proof.
  intros Hg Hc. unfold merged.
  destruct (selects_gemini ai_choice), (selects_chatgpt ai_choice);
    by simplify_map_eq.
Qed.

Lemma gemini_call_not_in_openai_calls w p sys q :
  GeminiGenerate q ∉ openai_calls w p sys.
Proof.
  unfold openai_calls. destruct (openai_client w).
  - by intros [=]%list_elem_of_singleton.
  - apply not_elem_of_nil.
Qed.

Lemma openai_call_not_in_gemini_calls w p sys m s q :
  OpenAICreate m s q ∉ gemini_calls w p sys.
Proof.
  unfold gemini_calls. destruct (gemini_model w).
  - by intros [=]%list_elem_of_singleton.
  - apply not_elem_of_nil.
Qed.

Lemma substring_0_prefix n s : ∃ rest, s = String.substring 0 n s +:+ rest.
Proof.
  revert s. induction n as [|n IH]; intros s.
  - exists s. by destruct s.
  - destruct s as [|c s]; [by exists ""|].
    destruct (IH s) as [rest Hrest]. exists rest. simpl.
    change (String c s = String c (String.substring 0 n s +:+ rest)).
    by f_equal.
Qed.

Lemma substring_0_length n s :
  String.length (String.substring 0 n s) = (n `min` String.length s)%nat.
Proof.
  revert s. induction n as [|n IH]; intros s.
  - by destruct s.
  - destruct s as [|c s]; [done|]. simpl. by rewrite IH.
Qed.

Lemma substring_0_all n s :
  (String.length s ≤ n)%nat → String.substring 0 n s = s.
Proof.
  revert s. induction n as [|n IH]; intros s Hlen.
  - destruct s; [done | simpl in Hlen; lia].
  - destruct s as [|c s]; [done|]. simpl in *. rewrite IH; [done | lia].
Qed.

(** ** The fetch *)

(** C8. A response outside the 2xx range makes the fetch raise the
    status message, which holds the decimal status code; every
    [RequestError], whatever its kind, makes it raise one and the same
    fixed message; and the fetch makes exactly one GET, whatever it ends
    in. *)
Theorem C8_fetch_failure_taxonomy w url tr :
  (∀ r, http_get w url = Return r →
        ¬ (200 ≤ status_code_of r ≤ 299) →
        fetch_website_content w url tr
        = (Raise (Exception (status_error_message (status_code_of r))),
           tr ++ [HttpGet url]))
  ∧ (∀ code, ∃ before after,
       status_error_message code = before +:+ pretty code +:+ after)
  ∧ (∀ kind msg, http_get w url = Raise (RequestError kind msg) →
       fetch_website_content w url tr
       = (Raise (Exception transport_error_message), tr ++ [HttpGet url]))
  ∧ (∀ o tr', fetch_website_content w url tr = (o, tr') →
       tr' = tr ++ [HttpGet url]).
Proof.
  repeat split.
  - intros r Hget Hstatus. rewrite fetch_website_content_run.
    unfold fetch_outcome. rewrite Hget.
    assert (is_success r = false) as ->; [|done].
    unfold is_success. apply andb_false_iff.
    destruct (Z.leb_spec 200 (status_code_of r)); [right | by left].
    apply Z.leb_gt. lia.
  - intros code. by exists "Failed to fetch content (Status: ", "). Site may be down.".
  - intros kind msg Hget. rewrite fetch_website_content_run.
    unfold fetch_outcome. by rewrite Hget.
  - intros o tr'. rewrite fetch_website_content_run. by intros [= _ <-].
Qed.

Lemma C8_witness :
  http_get world_404 "http://gone.example"
    = Return {| status_code_of := 404; text_of := "not found" |}
  ∧ ¬ (200 ≤ 404 ≤ 299)
  ∧ fetch_website_content world_404 "http://gone.example" []
    = (Raise (Exception (status_error_message 404)), [HttpGet "http://gone.example"])
  ∧ status_error_message 404
    = "Failed to fetch content (Status: 404). Site may be down."
  ∧ fetch_website_content world_offline "http://nowhere.example" []
    = (Raise (Exception transport_error_message), [HttpGet "http://nowhere.example"]).
Proof.
  split; [reflexivity|]. split; [lia|].
  destruct (C8_fetch_failure_taxonomy world_404 "http://gone.example" [])
    as (Hstatus & _).
  split; [exact (Hstatus _ eq_refl ltac:(simpl; lia))|].
  split; [vm_compute; reflexivity|].
  destruct (C8_fetch_failure_taxonomy world_offline "http://nowhere.example" [])
    as (_ & _ & Htransport & _).
  exact (Htransport DnsFailure "Name or service not known" eq_refl).
Defined.

(** ** The prompt *)

(** C6. The text put into the prompt is the prefix of the page of length
    15000, the whole page when it is no longer than that; the prompt is
    the fixed frame around the URL and that prefix, so it depends on the
    page through this prefix only; and every provider call the request
    makes carries this one prompt. *)
Theorem C6_prompt_is_prefix_and_shared
    w url ai_choice sys tr source_code tr0 :
  fetch_website_content w url tr = (Return source_code, tr0) →
  let t := truncated_source_code source_code in
  let p := user_prompt url source_code in
  (∃ rest, source_code = t +:+ rest)
  ∧ String.length t = (Z.to_nat 15000 `min` String.length source_code)%nat
  ∧ ((String.length source_code ≤ Z.to_nat 15000)%nat → t = source_code)
  ∧ p = "URL: " +:+ url +:+ "

SOURCE CODE (first 15,000 characters):
" +:+ t
  ∧ (∀ other, truncated_source_code other = t → user_prompt url other = p)
  ∧ ∃ response_data,
      perform_analysis w url ai_choice sys tr
      = (Return (response_data, 200),
         tr ++ [HttpGet url]
            ++ (if selects_gemini ai_choice then
                  match gemini_model w with
                  | Some _ => [GeminiGenerate (sys +:+ "

---

" +:+ p)]
                  | None => []
                  end
                else [])
            ++ (if selects_chatgpt ai_choice then
                  match openai_client w with
                  | Some _ => [OpenAICreate "gpt-4o-mini" sys p]
                  | None => []
                  end
                else [])).
Proof.
  intros [Hfetch _]%fetch_succeeded t p. subst t p.
  unfold truncated_source_code, MAX_CHARS.
  repeat split.
  - apply substring_0_prefix.
  - apply substring_0_length.
  - apply substring_0_all.
  - intros other Hother. unfold user_prompt, truncated_source_code, MAX_CHARS.
    by rewrite Hother.
  - eexists. rewrite perform_analysis_run, Hfetch. reflexivity.
Qed.

Lemma C6_witness :
  fetch_website_content world_gemini_down "http://good.example" []
    = (Return "<html>ok</html>", [HttpGet "http://good.example"])
  ∧ truncated_source_code "<html>ok</html>" = "<html>ok</html>"
  ∧ ∃ response_data,
      perform_analysis world_gemini_down "http://good.example" (Some "both")
        "system" []
      = (Return (response_data, 200),
         [HttpGet "http://good.example";
          GeminiGenerate ("system" +:+ "

---

" +:+ user_prompt "http://good.example" "<html>ok</html>");
          OpenAICreate "gpt-4o-mini" "system"
            (user_prompt "http://good.example" "<html>ok</html>")]).
Proof.
  split; [reflexivity|].
  destruct (C6_prompt_is_prefix_and_shared world_gemini_down
              "http://good.example" (Some "both") "system" [] "<html>ok</html>"
              [HttpGet "http://good.example"] eq_refl)
    as (_ & _ & Hshort & _ & _ & Hcalls).
  split; [|exact Hcalls].
  apply Hshort. apply Nat.leb_le. vm_compute. reflexivity.
Defined.

(** ** The adapters *)

(** Neither adapter ever raises, so [gather] hands [perform_analysis]
    returned values only and the branch for exception objects is never
    taken.  What Gemini's adapter returns is always a string; what
    OpenAI's returns is the content of the first choice as it came, a
    string unless that content is [None]. *)
Lemma adapters_never_raise w ai_choice p sys tr :
  (∃ (v : string) tr', analyze_with_gemini w p sys tr = (Return (PStr v), tr'))
  ∧ (∃ v tr',
       analyze_with_openai w p sys tr = (Return v, tr')
       ∧ (v = PNone →
          ∃ client rest,
            openai_client w = Some client
            ∧ chat_completions_create client "gpt-4o-mini" sys p
              = Return (PNone :: rest)))
  ∧ (∃ results tr',
       gather (tasks w ai_choice p sys) tr = (Return results, tr')
       ∧ Forall (λ r, ∃ v, r = Return v ∧ entry_of r = v) results).
Proof.
  rewrite analyze_with_gemini_run, analyze_with_openai_run, gather_tasks_run.
  split; [eauto|]. split.
  - eexists _, _. split; [reflexivity|]. unfold openai_value.
    destruct (openai_client w) as [client|]; [|done].
    destruct (chat_completions_create client _ _ _) as [[|content rest]|e]
      eqn:Hcreate; try done.
    intros ->. eauto.
  - eexists _, _. split; [reflexivity|].
    destruct (selects_gemini ai_choice), (selects_chatgpt ai_choice); simpl;
      repeat constructor; eauto.
Qed.

(** C10. The claim fails on the code where OpenAI answers with a choice
    whose [message.content] is [None]: [analyze_with_openai], declared
    to return [str], returns [None], no string at all, and the response
    holds [null] under [chatgpt] with status 200. *)
Theorem C10_openai_content_none :
  analyze_with_openai world_content_none "prompt" "system" []
    = (Return PNone, [OpenAICreate "gpt-4o-mini" "system" "prompt"])
  ∧ (∀ (s : string) tr',
       analyze_with_openai world_content_none "prompt" "system" []
       ≠ (Return (PStr s), tr'))
  ∧ (∃ tr',
       analyze world_content_none (request_of "http://good.example" "chatgpt") []
       = (Return ({["chatgpt" := PNone]}, 200), tr')).
Proof.
  split; [reflexivity|]. split; [intros s tr'; discriminate|].
  eexists. rewrite analyze_run. vm_compute. reflexivity.
Qed.

(** C3. With both providers selected and the page fetched, a backend
    that raises leaves its adapter's error string under its own key, and
    the text the other backend returned stands under the other key of
    the same response; neither adapter ever raises. *)
Theorem C3_one_failure_keeps_the_other w url sys tr source_code tr0 :
  fetch_website_content w url tr = (Return source_code, tr0) →
  let p := user_prompt url source_code in
  (∀ model client e content rest,
     gemini_model w = Some model →
     (generate_content_async model (gemini_full_prompt p sys) = Raise e
      ∨ generate_content_async model (gemini_full_prompt p sys) = Return (Raise e)) →
     openai_client w = Some client →
     chat_completions_create client "gpt-4o-mini" sys p = Return (content :: rest) →
     ∃ tr',
       perform_analysis w url (Some "both") sys tr
       = (Return (<["chatgpt" := content]>
                    (<["gemini" := PStr ("Error during Gemini analysis: " +:+ str e)]> ∅),
                  200), tr'))
  ∧ (∀ model client e text,
       openai_client w = Some client →
       (chat_completions_create client "gpt-4o-mini" sys p = Raise e
        ∨ chat_completions_create client "gpt-4o-mini" sys p = Return []
          ∧ e = IndexError) →
       gemini_model w = Some model →
       generate_content_async model (gemini_full_prompt p sys) = Return (Return text) →
       ∃ tr',
         perform_analysis w url (Some "both") sys tr
         = (Return (<["chatgpt" := PStr ("Error during OpenAI analysis: " +:+ str e)]>
                      (<["gemini" := PStr text]> ∅),
                    200), tr'))
  ∧ (∀ t, ∃ (v : string) t', analyze_with_gemini w p sys t = (Return (PStr v), t'))
  ∧ (∀ t, ∃ v t', analyze_with_openai w p sys t = (Return v, t')).
Proof.
  intros [Hfetch _]%fetch_succeeded p. subst p.
  repeat split.
  - intros model client e content rest Hm Hg Hc Ho.
    eexists. rewrite perform_analysis_run, Hfetch. unfold merged. simpl.
    unfold gemini_value, openai_value. rewrite Hm, Hc, Ho.
    by destruct Hg as [-> | ->].
  - intros model client e text Hc Ho Hm Hg.
    eexists. rewrite perform_analysis_run, Hfetch. unfold merged. simpl.
    unfold gemini_value, openai_value. rewrite Hm, Hc, Hg.
    by destruct Ho as [-> | [-> ->]].
  - intros t. rewrite analyze_with_gemini_run. eauto.
  - intros t. rewrite analyze_with_openai_run. eauto.
Qed.

Lemma C3_witness :
  fetch_website_content world_gemini_down "http://good.example" []
    = (Return "<html>ok</html>", [HttpGet "http://good.example"])
  ∧ (∃ tr',
       perform_analysis world_gemini_down "http://good.example" (Some "both")
         AI_SYSTEM_PROMPT []
       = (Return (<["chatgpt" := PStr "Verdict: Phishing
Reasoning: Suspicious form."]>
                    (<["gemini" := PStr "Error during Gemini analysis: 503 unavailable"]> ∅),
                  200), tr'))
  ∧ (∃ tr',
       perform_analysis world_openai_down "http://good.example" (Some "both")
         AI_SYSTEM_PROMPT []
       = (Return (<["chatgpt" := PStr "Error during OpenAI analysis: rate limit"]>
                    (<["gemini" := PStr "Verdict: Safe
Reasoning: Looks fine."]> ∅),
                  200), tr')).
Proof.
  split; [reflexivity|]. split.
  - destruct (C3_one_failure_keeps_the_other world_gemini_down
                "http://good.example" AI_SYSTEM_PROMPT [] "<html>ok</html>"
                [HttpGet "http://good.example"] eq_refl) as (Hgemini & _).
    apply (Hgemini _ _ (Exception "503 unavailable") _ [] eq_refl
             (or_introl eq_refl) eq_refl eq_refl).
  - destruct (C3_one_failure_keeps_the_other world_openai_down
                "http://good.example" AI_SYSTEM_PROMPT [] "<html>ok</html>"
                [HttpGet "http://good.example"] eq_refl) as (_ & Hopenai & _).
    apply (Hopenai _ _ (Exception "rate limit") _ eq_refl
             (or_introl eq_refl) eq_refl eq_refl).
Defined.

(** C5. An adapter whose client is missing returns its fixed error
    string at once, with no call logged; a request that selects such a
    provider, once the page is fetched, completes with status 200 and
    carries that string under the provider's key, and the request makes
    no call to that provider.  The route hands this answer on unchanged
    when the server has some client configured. *)
Theorem C5_unconfigured_provider_entry
    w url ai_choice sys tr source_code tr0 :
  fetch_website_content w url tr = (Return source_code, tr0) →
  (gemini_model w = None →
     (∀ p t, analyze_with_gemini w p sys t
             = (Return (PStr "Error: Gemini model is not configured or API key is missing."), t))
     ∧ (selects_gemini ai_choice = true →
        ∃ response_data calls,
          perform_analysis w url ai_choice sys tr
          = (Return (response_data, 200), tr ++ calls)
          ∧ response_data !! "gemini"
            = Some (PStr "Error: Gemini model is not configured or API key is missing.")
          ∧ ∀ q, GeminiGenerate q ∉ calls))
  ∧ (openai_client w = None →
     (∀ p t, analyze_with_openai w p sys t
             = (Return (PStr "Error: OpenAI client is not configured or API key is missing."), t))
     ∧ (selects_chatgpt ai_choice = true →
        ∃ response_data calls,
          perform_analysis w url ai_choice sys tr
          = (Return (response_data, 200), tr ++ calls)
          ∧ response_data !! "chatgpt"
            = Some (PStr "Error: OpenAI client is not configured or API key is missing.")
          ∧ ∀ m s q, OpenAICreate m s q ∉ calls))
  ∧ (∀ request d,
       not_configured w = false →
       get_json request = Return (JsonObject d) →
       d !! "url" = Some url →
       url ≠ "" →
       analyze w request tr
       = perform_analysis w url (d !! "ai_choice") AI_SYSTEM_PROMPT tr).
Proof.
  intros [Hfetch _]%fetch_succeeded. split; [|split].
  3: { intros request d Hconf Hjson Hurl Hne.
       rewrite analyze_run, Hconf, Hjson, Hurl.
       by rewrite bool_decide_eq_false_2. }
  - intros Hnone. split.
    + intros p t. unfold analyze_with_gemini. by rewrite Hnone.
    + intros Hsel. eexists _, _.
      rewrite perform_analysis_run, Hfetch. split; [reflexivity|].
      rewrite merged_gemini, Hsel. unfold gemini_value. rewrite Hnone.
      split; [reflexivity|]. intros q.
      unfold provider_calls, gemini_calls. rewrite Hsel, Hnone. simpl.
      intros [[=] | Hin]%elem_of_cons.
      destruct (selects_chatgpt ai_choice).
      * by apply gemini_call_not_in_openai_calls in Hin.
      * by apply not_elem_of_nil in Hin.
  - intros Hnone. split.
    + intros p t. unfold analyze_with_openai. by rewrite Hnone.
    + intros Hsel. eexists _, _.
      rewrite perform_analysis_run, Hfetch. split; [reflexivity|].
      rewrite merged_chatgpt, Hsel. unfold openai_value. rewrite Hnone.
      split; [reflexivity|]. intros m s q.
      unfold provider_calls, openai_calls. rewrite Hsel, Hnone.
      rewrite app_nil_r.
      intros [[=] | Hin]%elem_of_cons.
      destruct (selects_gemini ai_choice).
      * by apply openai_call_not_in_gemini_calls in Hin.
      * by apply not_elem_of_nil in Hin.
Qed.

Lemma C5_witness :
  fetch_website_content world_ok "http://good.example" []
    = (Return "<html>ok</html>", [HttpGet "http://good.example"])
  ∧ openai_client world_ok = None
  ∧ selects_chatgpt (Some "chatgpt") = true
  ∧ ∃ response_data calls,
      analyze world_ok (request_of "http://good.example" "chatgpt") []
      = (Return (response_data, 200), [] ++ calls)
      ∧ response_data !! "chatgpt"
        = Some (PStr "Error: OpenAI client is not configured or API key is missing.")
      ∧ ∀ m s q, OpenAICreate m s q ∉ calls.
Proof.
  split; [reflexivity|]. split; [reflexivity|]. split; [reflexivity|].
  destruct (C5_unconfigured_provider_entry world_ok "http://good.example"
              (Some "chatgpt") AI_SYSTEM_PROMPT [] "<html>ok</html>"
              [HttpGet "http://good.example"] eq_refl)
    as (_ & Hopenai & Hroute).
  rewrite (Hroute (request_of "http://good.example" "chatgpt")
             (<["url" := "http://good.example"]> (<["ai_choice" := "chatgpt"]> ∅))
             eq_refl eq_refl eq_refl ltac:(discriminate)).
  destruct (Hopenai eq_refl) as (_ & Hentry).
  exact (Hentry eq_refl).
Defined.

(** ** The merged response *)

(** C1. After a successful fetch the response has status 200 and holds
    exactly the selected providers: [gemini] is a key iff [ai_choice] is
    [gemini] or [both], [chatgpt] is a key iff it is [chatgpt] or [both],
    there is no other key, and the value under a key is what that
    provider's own adapter returns, whatever the backends answered. *)
Theorem C1_one_entry_per_selected_provider
    w url ai_choice sys tr source_code tr0 :
  fetch_website_content w url tr = (Return source_code, tr0) →
  ∃ response_data tr',
    perform_analysis w url ai_choice sys tr = (Return (response_data, 200), tr')
    ∧ (is_Some (response_data !! "gemini")
       ↔ ai_choice = Some "gemini" ∨ ai_choice = Some "both")
    ∧ (is_Some (response_data !! "chatgpt")
       ↔ ai_choice = Some "chatgpt" ∨ ai_choice = Some "both")
    ∧ (∀ k, is_Some (response_data !! k) → k = "gemini" ∨ k = "chatgpt")
    ∧ (∀ v, response_data !! "gemini" = Some v →
         ∀ t, ∃ t', analyze_with_gemini w (user_prompt url source_code) sys t
                    = (Return v, t'))
    ∧ (∀ v, response_data !! "chatgpt" = Some v →
         ∀ t, ∃ t', analyze_with_openai w (user_prompt url source_code) sys t
                    = (Return v, t')).
Proof.
  intros [Hfetch _]%fetch_succeeded.
  eexists _, _. rewrite perform_analysis_run, Hfetch.
  split; [reflexivity|].
  rewrite merged_gemini, merged_chatgpt.
  rewrite <- selects_gemini_iff, <- selects_chatgpt_iff.
  repeat split.
  - destruct (selects_gemini ai_choice); [done | by intros []].
  - intros ->. eauto.
  - destruct (selects_chatgpt ai_choice); [done | by intros []].
  - intros ->. eauto.
  - intros k [v Hk].
    destruct (decide (k = "gemini")); [by left|].
    destruct (decide (k = "chatgpt")); [by right|].
    by rewrite merged_other in Hk.
  - intros v Hv t. rewrite analyze_with_gemini_run.
    destruct (selects_gemini ai_choice); [|done].
    injection Hv as <-. eauto.
  - intros v Hv t. rewrite analyze_with_openai_run.
    destruct (selects_chatgpt ai_choice); [|done].
    injection Hv as <-. eauto.
Qed.

Lemma C1_witness :
  fetch_website_content world_ok "http://good.example" []
    = (Return "<html>ok</html>", [HttpGet "http://good.example"])
  ∧ ∃ response_data tr',
      perform_analysis world_ok "http://good.example" (Some "both")
        AI_SYSTEM_PROMPT [] = (Return (response_data, 200), tr')
      ∧ is_Some (response_data !! "gemini")
      ∧ is_Some (response_data !! "chatgpt")
      ∧ ∀ k, is_Some (response_data !! k) → k = "gemini" ∨ k = "chatgpt".
Proof.
  split; [reflexivity|].
  destruct (C1_one_entry_per_selected_provider world_ok "http://good.example"
              (Some "both") AI_SYSTEM_PROMPT [] "<html>ok</html>"
              [HttpGet "http://good.example"] eq_refl)
    as (response_data & tr' & Hrun & Hg & Hc & Hk & _).
  exists response_data, tr'.
  split; [exact Hrun|].
  split; [apply Hg; right; reflexivity|].
  split; [apply Hc; right; reflexivity | exact Hk].
Defined.

(** C2. When the fetch raises, [perform_analysis] answers status 400 with
    a body that holds the error message and nothing else; the only call
    made is the GET, so no provider was called, and the body has no
    provider entry.  The route answers the same for every request that
    reaches the fetch. *)
Theorem C2_fetch_failure_aborts w url ai_choice sys tr e tr0 :
  fetch_website_content w url tr = (Raise e, tr0) →
  perform_analysis w url ai_choice sys tr
    = (Return ({["error" := PStr (str e)]}, 400), tr ++ [HttpGet url])
  ∧ ({["error" := PStr (str e)]} : gmap string pyval) !! "gemini" = None
  ∧ ({["error" := PStr (str e)]} : gmap string pyval) !! "chatgpt" = None
  ∧ (∀ request d,
       not_configured w = false →
       get_json request = Return (JsonObject d) →
       d !! "url" = Some url →
       url ≠ "" →
       analyze w request tr
       = (Return ({["error" := PStr (str e)]}, 400), tr ++ [HttpGet url])).
Proof.
  intros [Hfetch _]%fetch_failed.
  rewrite perform_analysis_run, Hfetch.
  split; [done|]. split; [done|]. split; [done|].
  intros request d Hconf Hjson Hurl Hne.
  rewrite analyze_run, Hconf, Hjson, Hurl.
  rewrite bool_decide_eq_false_2 by done.
  by rewrite perform_analysis_run, Hfetch.
Qed.

Lemma C2_witness :
  fetch_website_content world_404 "http://gone.example" []
    = (Raise (Exception "Failed to fetch content (Status: 404). Site may be down."),
       [HttpGet "http://gone.example"])
  ∧ perform_analysis world_404 "http://gone.example" (Some "both")
      AI_SYSTEM_PROMPT []
    = (Return ({["error" := PStr "Failed to fetch content (Status: 404). Site may be down."]},
               400),
       [HttpGet "http://gone.example"])
  ∧ analyze world_404 (request_of "http://gone.example" "both") []
    = (Return ({["error" := PStr "Failed to fetch content (Status: 404). Site may be down."]},
               400),
       [HttpGet "http://gone.example"]).
Proof.
  split; [vm_compute; reflexivity|].
  destruct (C2_fetch_failure_aborts world_404 "http://gone.example" (Some "both")
              AI_SYSTEM_PROMPT []
              (Exception "Failed to fetch content (Status: 404). Site may be down.")
              [HttpGet "http://gone.example"] ltac:(vm_compute; reflexivity))
    as (Hrun & _ & _ & Hroute).
  split; [exact Hrun|].
  exact (Hroute (request_of "http://gone.example" "both")
           (<["url" := "http://gone.example"]> (<["ai_choice" := "both"]> ∅))
           eq_refl eq_refl eq_refl ltac:(discriminate)).
Defined.

(** ** The route *)

(** C9. The status of the answer: 500, with nothing called, when neither
    client is configured; for a request that reaches the fetch, 400 with
    the fetch error when the fetch fails, and 200 when it succeeds,
    whatever the providers answered. *)
Theorem C9_status_contract w request tr :
  (gemini_model w = None → openai_client w = None →
   ∃ body, analyze w request tr = (Return (body, 500), tr))
  ∧ (∀ d url,
       not_configured w = false →
       get_json request = Return (JsonObject d) →
       d !! "url" = Some url →
       url ≠ "" →
       (∀ e tr0,
          fetch_website_content w url tr = (Raise e, tr0) →
          analyze w request tr = (Return ({["error" := PStr (str e)]}, 400), tr0))
       ∧ (∀ source_code tr0,
            fetch_website_content w url tr = (Return source_code, tr0) →
            ∃ response_data tr',
              analyze w request tr = (Return (response_data, 200), tr')
              ∧ perform_analysis w url (d !! "ai_choice") AI_SYSTEM_PROMPT tr
                = (Return (response_data, 200), tr'))).
Proof.
  split.
  - intros Hg Ho. rewrite analyze_run, not_configured_no_provider by done.
    eauto.
  - intros d url Hconf Hjson Hurl Hne.
    rewrite analyze_run, Hconf, Hjson, Hurl.
    rewrite bool_decide_eq_false_2 by done.
    rewrite perform_analysis_run. split.
    + by intros e tr0 [-> ->]%fetch_failed.
    + intros source_code tr0 [-> _]%fetch_succeeded. eauto.
Qed.

Lemma C9_witness :
  (∃ body, analyze world_unconfigured (request_of "http://good.example" "both") []
           = (Return (body, 500), []))
  ∧ analyze world_404 (request_of "http://gone.example" "both") []
    = (Return ({["error" := PStr "Failed to fetch content (Status: 404). Site may be down."]},
               400),
       [HttpGet "http://gone.example"])
  ∧ (∃ response_data tr',
       analyze world_gemini_down (request_of "http://good.example" "gemini") []
       = (Return (response_data, 200), tr')).
Proof.
  split; [|split].
  - destruct (C9_status_contract world_unconfigured
                (request_of "http://good.example" "both") []) as [Hnone _].
    exact (Hnone eq_refl eq_refl).
  - destruct (C9_status_contract world_404
                (request_of "http://gone.example" "both") []) as [_ Hreq].
    destruct (Hreq (<["url" := "http://gone.example"]> (<["ai_choice" := "both"]> ∅))
                "http://gone.example" eq_refl eq_refl eq_refl ltac:(discriminate))
      as [Hfail _].
    exact (Hfail (Exception "Failed to fetch content (Status: 404). Site may be down.")
             [HttpGet "http://gone.example"] ltac:(vm_compute; reflexivity)).
  - destruct (C9_status_contract world_gemini_down
                (request_of "http://good.example" "gemini") []) as [_ Hreq].
    destruct (Hreq (<["url" := "http://good.example"]> (<["ai_choice" := "gemini"]> ∅))
                "http://good.example" eq_refl eq_refl eq_refl ltac:(discriminate))
      as [_ Hok].
    destruct (Hok "<html>ok</html>" [HttpGet "http://good.example"] eq_refl)
      as (response_data & tr' & Hrun & Hinner).
    exists response_data, tr'. exact Hrun.
Defined.

(** C4 fails on the code: with [ai_choice] set to [none] the page is
    fetched and the request is answered 200 with an empty object. *)
Lemma C4_counterexample :
  analyze world_ok (request_of "http://good.example" "none") []
    = (Return (∅, 200), [HttpGet "http://good.example"])
  ∧ ¬ rejected_before_fetch world_ok (request_of "http://good.example" "none").
Proof.
  assert (Hrun : analyze world_ok (request_of "http://good.example" "none") []
                 = (Return (∅, 200), [HttpGet "http://good.example"])).
  { rewrite analyze_run. reflexivity. }
  split; [exact Hrun|].
  intros (body & status & tr' & Hrej & Hstatus & Hget).
  rewrite Hrun in Hrej. injection Hrej as <- <- <-.
  lia.
Qed.

(** C4, amended. A request whose [ai_choice] names neither provider is
    not rejected: the page is fetched; when the fetch succeeds the
    answer is 200 with an empty object and no provider is called, and
    when it fails the answer is 400 with the fetch error. *)
Theorem C4_no_provider_selected w request d url tr :
  not_configured w = false →
  get_json request = Return (JsonObject d) →
  d !! "url" = Some url →
  url ≠ "" →
  d !! "ai_choice" ≠ Some "gemini" →
  d !! "ai_choice" ≠ Some "chatgpt" →
  d !! "ai_choice" ≠ Some "both" →
  (∀ source_code tr0,
     fetch_website_content w url tr = (Return source_code, tr0) →
     analyze w request tr = (Return (∅, 200), tr ++ [HttpGet url]))
  ∧ (∀ e tr0,
       fetch_website_content w url tr = (Raise e, tr0) →
       analyze w request tr
       = (Return ({["error" := PStr (str e)]}, 400), tr ++ [HttpGet url])).
Proof.
  intros Hconf Hjson Hurl Hne Hg Hc Hb.
  assert (selects_gemini (d !! "ai_choice") = false) as Hsg.
  { apply not_true_is_false. rewrite selects_gemini_iff. tauto. }
  assert (selects_chatgpt (d !! "ai_choice") = false) as Hsc.
  { apply not_true_is_false. rewrite selects_chatgpt_iff. tauto. }
  rewrite analyze_run, Hconf, Hjson, Hurl.
  rewrite bool_decide_eq_false_2 by done.
  rewrite perform_analysis_run.
  split.
  - intros source_code tr0 [-> _]%fetch_succeeded.
    unfold merged, provider_calls. rewrite Hsg, Hsc. done.
  - by intros e tr0 [-> _]%fetch_failed.
Qed.

Lemma C4_witness :
  not_configured world_ok = false
  ∧ analyze world_ok (request_of "http://good.example" "none") []
    = (Return (∅, 200), [HttpGet "http://good.example"])
  ∧ analyze world_404 (request_of "http://gone.example" "none") []
    = (Return ({["error" := PStr "Failed to fetch content (Status: 404). Site may be down."]},
               400),
       [HttpGet "http://gone.example"]).
Proof.
  split; [reflexivity|]. split.
  - destruct (C4_no_provider_selected world_ok
                (request_of "http://good.example" "none")
                (<["url" := "http://good.example"]> (<["ai_choice" := "none"]> ∅))
                "http://good.example" []
                eq_refl eq_refl eq_refl ltac:(discriminate)
                ltac:(vm_compute; discriminate) ltac:(vm_compute; discriminate)
                ltac:(vm_compute; discriminate)) as [Hok _].
    exact (Hok "<html>ok</html>" [HttpGet "http://good.example"] eq_refl).
  - destruct (C4_no_provider_selected world_404
                (request_of "http://gone.example" "none")
                (<["url" := "http://gone.example"]> (<["ai_choice" := "none"]> ∅))
                "http://gone.example" []
                eq_refl eq_refl eq_refl ltac:(discriminate)
                ltac:(vm_compute; discriminate) ltac:(vm_compute; discriminate)
                ltac:(vm_compute; discriminate)) as [_ Hfail].
    exact (Hfail (Exception "Failed to fetch content (Status: 404). Site may be down.")
             [HttpGet "http://gone.example"] ltac:(vm_compute; reflexivity)).
Defined.

(** The scenarios of the specification, run on the model. *)
Example scenario_both_providers :
  ∃ tr,
    analyze world_both_up (request_of "http://good.example" "both") []
    = (Return (<["gemini" := PStr "Verdict: Safe
Reasoning: Looks fine."]>
                 {["chatgpt" := PStr "Verdict: Phishing
Reasoning: Suspicious form."]},
               200), tr).
Proof. eexists. vm_compute. reflexivity. Qed.

Example scenario_status_404 :
  analyze world_404 (request_of "http://gone.example" "both") []
  = (Return ({["error" := PStr "Failed to fetch content (Status: 404). Site may be down."]},
             400),
     [HttpGet "http://gone.example"]).
Proof. vm_compute. reflexivity. Qed.

Example scenario_secondary_unconfigured :
  analyze world_ok (request_of "http://good.example" "chatgpt") []
  = (Return ({["chatgpt" :=
                 PStr "Error: OpenAI client is not configured or API key is missing."]},
             200),
     [HttpGet "http://good.example"]).
Proof. vm_compute. reflexivity. Qed.

(** ** The result formatter *)

Section page_facts.
Import Page.

Lemma app_cons c s t : String c s +:+ t = String c (s +:+ t).
Proof. reflexivity. Qed.

Lemma app_empty_l t : "" +:+ t = t.
Proof. reflexivity. Qed.


Lemma length_app_str a b :
  String.length (a +:+ b) = (String.length a + String.length b)%nat.
Proof.
  induction a as [|x a IH]; [done|]. rewrite app_cons. simpl. by f_equal.
Qed.

(** A property checked on the 256 characters holds of every character. *)
Lemma all_ascii (P : ascii → bool) :
  forallb P (map ascii_of_nat (seq 0 256)) = true → ∀ c, P c = true.
Proof.
  intros Hall c. rewrite forallb_forall in Hall. apply Hall.
  rewrite <- (ascii_nat_embedding c). apply in_map, in_seq.
  pose proof (nat_ascii_bounded c). lia.
Qed.

Lemma all_ascii2 (P : ascii → ascii → bool) :
  forallb (λ c, forallb (P c) (map ascii_of_nat (seq 0 256)))
    (map ascii_of_nat (seq 0 256)) = true →
  ∀ c a, P c a = true.
Proof.
  intros Hall c. apply all_ascii. revert c.
  by apply (all_ascii (λ c, forallb (P c) (map ascii_of_nat (seq 0 256)))).
Qed.

Lemma space_is_no_letter c a :
  is_space c = true →
  is_capital (canonicalize a) = true →
  atom_matches (Chr a) c = false.
Proof.
  intros Hc Ha.
  pose proof (all_ascii2
    (λ c a, implb (is_space c)
              (implb (is_capital (canonicalize a))
                 (negb (atom_matches (Chr a) c))))) as Hall.
  specialize (Hall ltac:(vm_compute; reflexivity) c a). cbv beta in Hall.
  rewrite Hc, Ha in Hall. by apply negb_true_iff.
Qed.

Lemma lower_char_canonicalize c :
  is_capital (canonicalize c) = true →
  lower_char c = lower_char (canonicalize c).
Proof.
  intros Hc.
  pose proof (all_ascii
    (λ c, implb (is_capital (canonicalize c))
            (bool_decide (lower_char c = lower_char (canonicalize c))))) as Hall.
  specialize (Hall ltac:(vm_compute; reflexivity) c). cbv beta in Hall.
  rewrite Hc in Hall. by apply bool_decide_eq_true in Hall.
Qed.

(** *** The matcher on the two expressions *)

Lemma matcher_lit p cap s k :
  matcher (lit p) cap s k
  = if ci_prefix p s then k cap (skip (String.length p) s) else None.
Proof.
  revert s. induction p as [|a p IH]; intros s; simpl.
  - by destruct s.
  - destruct s as [|c s]; [done|].
    destruct (bool_decide _); simpl; [apply IH | done].
Qed.

Lemma star_space_blocked k s :
  (∀ c s', is_space c = true → k (String c s') = None) →
  star Space s k = k (trimStart s).
Proof.
  intros Hk. induction s as [|c s IH]; simpl; [done|].
  destruct (is_space c) eqn:Hc; [|done].
  rewrite IH. destruct (k (trimStart s)); [done|]. by apply Hk.
Qed.



Lemma ci_prefix_length p s :
  ci_prefix p s = true → (String.length p ≤ String.length s)%nat.
Proof.
  revert s. induction p as [|a p IH]; intros s; simpl; [lia|].
  destruct s as [|c s]; [done|]. intros [_ Hp]%andb_true_iff.
  apply IH in Hp. simpl. lia.
Qed.

Lemma length_skip n s :
  String.length (skip n s) = (String.length s - n)%nat.
Proof.
  revert s. induction n as [|n IH]; intros s; simpl; [lia|].
  destruct s as [|c s]; [done|]. by rewrite IH.
Qed.

Lemma consumed_skip n s :
  (n ≤ String.length s)%nat → consumed s (skip n s) = take n s.
Proof.
  intros Hn. unfold consumed, take. rewrite length_skip. f_equal. lia.
Qed.


Lemma word_blocked_on_space c s :
  is_space c = true →
  ci_prefix "Safe" (String c s) = false ∧ ci_prefix "Phishing" (String c s) = false.
Proof.
  intros Hc. cbn [ci_prefix].
  rewrite !(space_is_no_letter c) by done. done.
Qed.

Lemma matcher_cat r1 r2 cap s k :
  matcher (Cat r1 r2) cap s k = matcher r1 cap s (λ cap' s', matcher r2 cap' s' k).
Proof. reflexivity. Qed.

Lemma matcher_star a cap s k : matcher (Star a) cap s k = star a s (k cap).
Proof. reflexivity. Qed.

Lemma matcher_group r cap s k :
  matcher (Group r) cap s k
  = matcher r cap s (λ _ s', k (Some (consumed s s')) s').
Proof. reflexivity. Qed.

Lemma matcher_alt r1 r2 cap s k :
  matcher (Alt r1 r2) cap s k
  = match matcher r1 cap s k with
    | Some x => Some x
    | None => matcher r2 cap s k
    end.
Proof. reflexivity. Qed.

(** The group of the verdict expression, tried at the start of [s]. *)
Lemma matcher_word s :
  matcher (Group (Alt (lit "Safe") (lit "Phishing"))) None s (λ cap _, Some cap)
  = Some <$> (if ci_prefix "Safe" s then Some (take 4 s)
              else if ci_prefix "Phishing" s then Some (take 8 s)
              else None).
Proof.
  rewrite matcher_group, matcher_alt, !matcher_lit.
  destruct (ci_prefix "Safe" s) eqn:HS.
  - apply ci_prefix_length in HS. by rewrite consumed_skip.
  - destruct (ci_prefix "Phishing" s) eqn:HP; [|done].
    apply ci_prefix_length in HP. by rewrite consumed_skip.
Qed.

Lemma matcher_verdict s :
  matcher verdict_re None s (λ cap _, Some cap) = Some <$> verdict_at s.
Proof.
  unfold verdict_re, verdict_at.
  rewrite matcher_cat, matcher_lit.
  destruct (ci_prefix "Verdict:" s); [|done].
  change (String.length "Verdict:") with 8%nat.
  rewrite matcher_cat, matcher_star, star_space_blocked.
  - apply matcher_word.
  - intros c s' Hc. rewrite matcher_word.
    by destruct (word_blocked_on_space c s' Hc) as [-> ->].
Qed.


(** *** The leftmost match *)

Lemma match_unfold r text :
  match_ r text
  = match matcher r None text (λ cap _, Some cap) with
    | Some cap => Some cap
    | None =>
        match text with
        | String _ text' => match_ r text'
        | EmptyString => None
        end
    end.
Proof. by destruct text. Qed.


Lemma match_some r text res :
  match_ r text = Some res →
  ∃ i, (i ≤ String.length text)%nat
       ∧ matcher r None (skip i text) (λ cap _, Some cap) = Some res
       ∧ ∀ j, (j < i)%nat →
              matcher r None (skip j text) (λ cap _, Some cap) = None.
Proof.
  induction text as [|c text IH]; rewrite match_unfold.
  - destruct (matcher r None "" _) eqn:Hat; [|done].
    intros [= ->]. exists 0%nat.
    split; [done | split; [done | intros j Hj; lia]].
  - destruct (matcher r None (String c text) _) eqn:Hat.
    + intros [= ->]. exists 0%nat.
      split; [simpl; lia | split; [done | intros j Hj; lia]].
    + intros (i & Hi & Hati & Hbefore)%IH. exists (S i).
      split; [simpl; lia | split; [done|]].
      intros [|j] Hj; [done|]. apply Hbefore. lia.
Qed.


(** *** Strings *)

Lemma skip_app pre s : skip (String.length pre) (pre +:+ s) = s.
Proof. induction pre as [|c pre IH]; [by destruct s | done]. Qed.

Lemma take_app w s : take (String.length w) (w +:+ s) = w.
Proof.
  unfold take. induction w as [|c w IH]; [by destruct s|].
  rewrite app_cons. simpl. by f_equal.
Qed.

Lemma take_skip n s : s = take n s +:+ skip n s.
Proof.
  unfold take. revert s. induction n as [|n IH]; intros s.
  - by destruct s.
  - destruct s as [|c s]; [done|]. simpl. rewrite app_cons. f_equal. apply IH.
Qed.

Lemma length_take n s :
  (n ≤ String.length s)%nat → String.length (take n s) = n.
Proof. intros Hn. unfold take. rewrite substring_0_length. lia. Qed.

Lemma ci_eq_length m p : ci_eq m p → String.length m = String.length p.
Proof.
  unfold ci_eq. revert m. induction p as [|a p IH]; intros [|c m]; simpl;
    try done. intros [= _ Hp]. f_equal. by apply IH.
Qed.

Lemma ci_eq_prefix m p rest : ci_eq m p → ci_prefix p (m +:+ rest) = true.
Proof.
  unfold ci_eq. revert m. induction p as [|a p IH]; intros [|c m]; simpl;
    try done.
  intros [= Hc Hp]. rewrite ?app_cons. cbn [ci_prefix atom_matches].
  rewrite bool_decide_eq_true_2 by done. by apply IH.
Qed.

Lemma ci_prefix_take p s :
  ci_prefix p s = true → ci_eq (take (String.length p) s) p.
Proof.
  unfold ci_eq, take. revert s. induction p as [|a p IH]; intros s.
  - by destruct s.
  - destruct s as [|c s]; [done|]. cbn [ci_prefix atom_matches].
    intros [Hc%bool_decide_eq_true Hp]%andb_true_iff. simpl.
    f_equal; [done | by apply IH].
Qed.

Lemma trimStart_app_space ws s :
  all_space ws = true → trimStart (ws +:+ s) = trimStart s.
Proof.
  induction ws as [|c ws IH]; [done|]. simpl.
  intros [Hc Hws]%andb_true_iff. rewrite ?app_cons. simpl. rewrite Hc. auto.
Qed.

Lemma trimStart_split s :
  ∃ ws, all_space ws = true ∧ s = ws +:+ trimStart s.
Proof.
  induction s as [|c s (ws & Hws & Hs)]; [by exists ""|]. simpl.
  destruct (is_space c) eqn:Hc; [|by exists ""].
  exists (String c ws). simpl. rewrite Hc, ?app_cons. split; [done | by f_equal].
Qed.

Lemma trimStart_idem s : trimStart (trimStart s) = trimStart s.
Proof.
  induction s as [|c s IH]; [done|]. simpl.
  destruct (is_space c) eqn:Hc; [done|]. simpl. by rewrite Hc.
Qed.

(** A word that reads [Safe] or [Phishing] begins with a letter, which is
    no white space. *)
Lemma trimStart_word w word post :
  ci_eq w word →
  match word with
  | String a _ => is_capital (canonicalize a) = true
  | EmptyString => False
  end →
  trimStart (w +:+ post) = w +:+ post.
Proof.
  unfold ci_eq. destruct word as [|a word]; [done|].
  destruct w as [|c w]; [done|]. simpl. intros [= Hc _] Ha.
  rewrite ?app_cons. simpl.
  destruct (is_space c) eqn:Hsp; [|done].
  pose proof (space_is_no_letter c a Hsp Ha) as Hno.
  cbn [atom_matches] in Hno. by rewrite bool_decide_eq_true_2 in Hno.
Qed.

Lemma match_none_all r text i :
  match_ r text = None →
  (i ≤ String.length text)%nat →
  matcher r None (skip i text) (λ cap _, Some cap) = None.
Proof.
  revert i. induction text as [|c text IH]; intros i; rewrite match_unfold.
  - destruct (matcher r None "" _) eqn:Hat; [done|].
    intros _ Hi. by assert (i = 0%nat) as -> by (simpl in Hi; lia).
  - destruct (matcher r None (String c text) _) eqn:Hat; [done|].
    intros Hrest Hi. destruct i as [|i]; [done|].
    apply IH; [done | simpl in Hi; lia].
Qed.

(** *** Occurrences and the direct reading *)

Lemma empty_of_length_0 s : String.length s = 0%nat → s = "".
Proof. by destruct s. Qed.

Lemma not_safe_when_phishing w post :
  ci_eq w "Phishing" → ci_prefix "Safe" (w +:+ post) = false.
Proof.
  unfold ci_eq. destruct w as [|c w]; [done|]. simpl. intros [= Hc _].
  rewrite ?app_cons. cbn [ci_prefix atom_matches]. by rewrite Hc.
Qed.

Lemma verdict_at_occurs s w : verdict_at s = Some w ↔ verdict_occurs s 0 w.
Proof.
  split.
  - unfold verdict_at. destruct (ci_prefix "Verdict:" s) eqn:HV; [|done].
    destruct (trimStart_split (skip 8 s)) as (ws & Hws & Hsplit).
    pose proof (ci_prefix_take _ _ HV) as Hm.
    assert (s = "" +:+ take 8 s +:+ ws +:+ trimStart (skip 8 s)) as Hs.
    { rewrite app_empty_l, <- Hsplit. apply take_skip. }
    destruct (ci_prefix "Safe" (trimStart (skip 8 s))) eqn:HS.
    + intros [= <-]. exists "", (take 8 s), ws, (skip 4 (trimStart (skip 8 s))).
      rewrite <- take_skip.
      repeat split; [done.. | left; by apply (ci_prefix_take "Safe")].
    + destruct (ci_prefix "Phishing" (trimStart (skip 8 s))) eqn:HP; [|done].
      intros [= <-]. exists "", (take 8 s), ws, (skip 8 (trimStart (skip 8 s))).
      rewrite <- take_skip.
      repeat split; [done.. | right; by apply (ci_prefix_take "Phishing")].
  - intros (pre & m & ws & post & -> & ->%empty_of_length_0 & Hm & Hws & Hw).
    assert (∀ rest, skip 8 (m +:+ rest) = rest) as Hskip.
    { intros rest. change 8%nat with (String.length "Verdict:").
      rewrite <- (ci_eq_length _ _ Hm). apply skip_app. }
    unfold verdict_at. rewrite app_empty_l, (ci_eq_prefix m "Verdict:") by done.
    rewrite Hskip, trimStart_app_space by done.
    destruct Hw as [Hw | Hw].
    + rewrite (trimStart_word w "Safe") by done.
      rewrite (ci_eq_prefix w "Safe") by done.
      change 4%nat with (String.length "Safe").
      rewrite <- (ci_eq_length _ _ Hw). by rewrite take_app.
    + rewrite (trimStart_word w "Phishing") by done.
      rewrite not_safe_when_phishing, (ci_eq_prefix w "Phishing") by done.
      change 8%nat with (String.length "Phishing").
      rewrite <- (ci_eq_length _ _ Hw). by rewrite take_app.
Qed.

Lemma verdict_occurs_at text i w :
  verdict_occurs text i w
  ↔ (i ≤ String.length text)%nat ∧ verdict_at (skip i text) = Some w.
Proof.
  split.
  - intros (pre & m & ws & post & -> & <- & Hm & Hws & Hw).
    rewrite length_app_str, skip_app. split; [lia|].
    apply verdict_at_occurs. by exists "", m, ws, post.
  - intros [Hi (pre & m & ws & post & Hs & ->%empty_of_length_0 & Hm & Hws & Hw)
              %verdict_at_occurs].
    exists (take i text), m, ws, post.
    rewrite app_empty_l in Hs. rewrite <- Hs, <- take_skip.
    by rewrite length_take.
Qed.


Lemma toLowerCase_upper w :
  all_capital (upper w) = true → toLowerCase w = toLowerCase (upper w).
Proof.
  induction w as [|c w IH]; [done|]. simpl.
  intros [Hc Hw]%andb_true_iff. f_equal; [|by apply IH].
  by apply lower_char_canonicalize.
Qed.

Lemma toLowerCase_ci w word :
  ci_eq w word → all_capital (upper word) = true →
  toLowerCase w = toLowerCase (upper word).
Proof.
  unfold ci_eq. intros Hw Hcap. rewrite <- Hw in *. by apply toLowerCase_upper.
Qed.

(** *** What [formatResult] reads out of a text *)



Lemma verdictMatch_some text i w :
  verdict_occurs text i w →
  ∃ j w', (j ≤ i)%nat ∧ verdict_occurs text j w'
          ∧ verdictMatch text = Some (Some w').
Proof.
  intros [Hi Hat]%verdict_occurs_at.
  destruct (verdictMatch text) as [res|] eqn:Hmatch.
  - apply match_some in Hmatch as (j & Hj & Hatj & Hbefore).
    rewrite matcher_verdict in Hatj.
    destruct (verdict_at (skip j text)) as [w'|] eqn:Hw'; [|done].
    injection Hatj as <-. exists j, w'. split; [|split; [|done]].
    + destruct (decide (j ≤ i)%nat) as [|Hgt]; [done|].
      specialize (Hbefore i ltac:(lia)).
      by rewrite matcher_verdict, Hat in Hbefore.
    + by apply verdict_occurs_at.
  - pose proof (match_none_all _ _ i Hmatch Hi) as Hno.
    by rewrite matcher_verdict, Hat in Hno.
Qed.

Lemma verdictClass_safe text w :
  verdictMatch text = Some (Some w) → ci_eq w "Safe" →
  verdictClass text = "verdict-safe".
Proof.
  intros Hmatch Hw. unfold verdictClass, verdict. rewrite Hmatch.
  by rewrite (toLowerCase_ci w "Safe").
Qed.

Lemma verdictClass_phishing text w :
  verdictMatch text = Some (Some w) → ci_eq w "Phishing" →
  verdictClass text = "verdict-phishing".
Proof.
  intros Hmatch Hw. unfold verdictClass, verdict. rewrite Hmatch.
  by rewrite (toLowerCase_ci w "Phishing").
Qed.



(** *** The reader's notions and the script's *)









(** *** Trimming *)














(** *** Checking a given text, place by place *)








(** The marker may stand anywhere and in any casing; the first place
    wins; a word that is neither [Safe] nor [Phishing] gives [Unknown];
    an error string is shown as an error. *)
Example formatResult_lenient :
  verdict "so: vERDICT:	 phiSHING! Verdict: Safe" = "phiSHING"
  ∧ verdictClass "so: vERDICT:	 phiSHING! Verdict: Safe" = "verdict-phishing"
  ∧ reasoning "REASONING:   forged login form
  " = "forged login form"
  ∧ verdict "The verdict is safe." = "Unknown"
  ∧ reasoning "The verdict is safe." = "The verdict is safe."
  ∧ formatResult "Error: OpenAI client is not configured or API key is missing."
    = error_html "Error: OpenAI client is not configured or API key is missing.".
Proof. vm_compute. repeat split. Qed.

End page_facts.

(** * The rest of main.py *)

(** ** The key file *)

Lemma rstrip_cons c s :
  py_isspace c = false → rstrip (String c s) = String c (rstrip s).
Proof. intros Hc. simpl. destruct (rstrip s); by rewrite ?Hc. Qed.

Lemma rstrip_cons_nonempty c s :
  rstrip s ≠ "" → rstrip (String c s) = String c (rstrip s).
Proof. intros Hs. simpl. by destruct (rstrip s). Qed.

Lemma rstrip_cons_space c s :
  py_isspace c = true → rstrip s = "" → rstrip (String c s) = "".
Proof. intros Hc Hs. simpl. by rewrite Hs, Hc. Qed.

Lemma lstrip_head s :
  match lstrip s with
  | EmptyString => True
  | String c _ => py_isspace c = false
  end.
Proof.
  induction s as [|c s IH]; [done|]. simpl.
  by destruct (py_isspace c) eqn:Hc.
Qed.

Lemma lstrip_fixed s :
  match s with
  | EmptyString => True
  | String c _ => py_isspace c = false
  end → lstrip s = s.
Proof. destruct s as [|c s]; [done|]. simpl. by intros ->. Qed.

Lemma lstrip_idem s : lstrip (lstrip s) = lstrip s.
Proof. apply lstrip_fixed, lstrip_head. Qed.

Lemma rstrip_head s :
  match rstrip s with
  | EmptyString => True
  | String c _ => ∃ s', s = String c s'
  end.
Proof.
  destruct s as [|c s]; [done|]. simpl.
  destruct (rstrip s); [destruct (py_isspace c)|]; eauto.
Qed.

Lemma rstrip_idem s : rstrip (rstrip s) = rstrip s.
Proof.
  induction s as [|c s IH]; [done|].
  destruct (decide (rstrip s = "")) as [Hempty|Hrest].
  - destruct (py_isspace c) eqn:Hc.
    + by rewrite (rstrip_cons_space c s).
    + rewrite (rstrip_cons c s), Hempty by done. simpl. by rewrite Hc.
  - rewrite (rstrip_cons_nonempty c s) by done.
    rewrite rstrip_cons_nonempty; by rewrite IH.
Qed.

Lemma lstrip_rstrip s : lstrip s = s → lstrip (rstrip s) = rstrip s.
Proof.
  intros Hs. apply lstrip_fixed.
  pose proof (rstrip_head s) as Hhead. pose proof (lstrip_head s) as Hfirst.
  destruct (rstrip s) as [|c t]; [done|].
  destruct Hhead as [s' ->]. by rewrite Hs in Hfirst.
Qed.

Lemma strip_lstrip s : lstrip (strip s) = strip s.
Proof. apply lstrip_rstrip, lstrip_idem. Qed.

Lemma strip_rstrip s : rstrip (strip s) = strip s.
Proof. apply rstrip_idem. Qed.

Lemma strip_idem s : strip (strip s) = strip s.
Proof. unfold strip at 1. by rewrite strip_lstrip, strip_rstrip. Qed.

Lemma has_eq_lstrip s : has_eq s = false → has_eq (lstrip s) = false.
Proof.
  induction s as [|c s IH]; [done|]. simpl.
  intros [Hc Hs]%orb_false_iff. destruct (py_isspace c); [auto|].
  simpl. by rewrite Hc, Hs.
Qed.

Lemma has_eq_rstrip s : has_eq s = false → has_eq (rstrip s) = false.
Proof.
  induction s as [|c s IH]; [done|]. simpl.
  intros [Hc Hs]%orb_false_iff. specialize (IH Hs).
  destruct (rstrip s); [destruct (py_isspace c)|]; simpl; rewrite ?Hc; auto.
Qed.

Lemma has_eq_strip s : has_eq s = false → has_eq (strip s) = false.
Proof. intros Hs. by apply has_eq_rstrip, has_eq_lstrip. Qed.

Lemma split_eq_Some line key value :
  split_eq line = Some (key, value) →
  line = key +:+ "=" +:+ value ∧ has_eq key = false.
Proof.
  revert key. induction line as [|c line IH]; intros key; [done|]. simpl.
  destruct (bool_decide (c = "="%char)) eqn:Hc.
  - apply bool_decide_eq_true in Hc as ->. by intros [= <- <-].
  - destruct (split_eq line) as [[k v]|]; [|done]. intros [= <- <-].
    destruct (IH k eq_refl) as [-> Hk]. simpl. by rewrite Hc.
Qed.

Lemma split_eq_None line : split_eq line = None ↔ has_eq line = false.
Proof.
  induction line as [|c line IH]; [done|]. simpl.
  destruct (bool_decide (c = "="%char)); simpl; [done|].
  destruct (split_eq line) as [[k v]|]; [|by rewrite <- IH].
  split; [done|]. intros Hno. apply IH in Hno. done.
Qed.

Lemma split_eq_app key value :
  has_eq key = false → split_eq (key +:+ "=" +:+ value) = Some (key, value).
Proof.
  induction key as [|c key IH]; [done|]. simpl.
  intros [Hc Hkey]%orb_false_iff.
  change (String c key +:+ "=" +:+ value)
    with (String c (key +:+ "=" +:+ value)).
  simpl. by rewrite Hc, IH.
Qed.

Lemma read_line_assignment keys line :
  read_line keys line
  = match assignment line with
    | Some (key, value) => <[key := value]> keys
    | None => keys
    end.
Proof.
  unfold read_line, assignment.
  destruct (bool_decide (strip line = "") || startswith (strip line) "#");
    [done|].
  by destruct (split_eq (strip line)) as [[key value]|].
Qed.

Lemma str_app_cons c s t : String c s +:+ t = String c (s +:+ t).
Proof. reflexivity. Qed.

Lemma str_app_assoc a b c : (a +:+ b) +:+ c = a +:+ b +:+ c.
Proof.
  induction a as [|x a IH]; [done|]. rewrite !str_app_cons. by f_equal.
Qed.

Lemma str_app_empty_r a : a +:+ "" = a.
Proof. induction a as [|x a IH]; [done|]. rewrite str_app_cons. by f_equal. Qed.

Lemma py_space_not_eq c : py_isspace c = true → bool_decide (c = "="%char) = false.
Proof.
  intros Hc. apply bool_decide_eq_false. intros ->. discriminate.
Qed.

Lemma has_eq_app a b : has_eq (a +:+ b) = has_eq a || has_eq b.
Proof.
  induction a as [|x a IH]; [done|]. rewrite str_app_cons. simpl.
  by rewrite IH, orb_assoc.
Qed.

Lemma has_eq_space ws : all_py_space ws = true → has_eq ws = false.
Proof.
  induction ws as [|c ws IH]; [done|]. simpl.
  intros [Hc Hws]%andb_true_iff. by rewrite py_space_not_eq, IH.
Qed.

Lemma lstrip_app_space ws s :
  all_py_space ws = true → lstrip (ws +:+ s) = lstrip s.
Proof.
  induction ws as [|c ws IH]; [done|]. simpl.
  intros [Hc Hws]%andb_true_iff. rewrite ?str_app_cons. simpl. rewrite Hc. auto.
Qed.

Lemma rstrip_space ws : all_py_space ws = true → rstrip ws = "".
Proof.
  induction ws as [|c ws IH]; [done|]. simpl.
  intros [Hc Hws]%andb_true_iff. by rewrite IH, Hc.
Qed.

Lemma rstrip_app_empty a b : rstrip b = "" → rstrip (a +:+ b) = rstrip a.
Proof.
  intros Hb. induction a as [|x a IH]; [done|].
  rewrite str_app_cons. simpl. by rewrite IH.
Qed.

Lemma rstrip_app_nonempty a b :
  rstrip b ≠ "" → rstrip (a +:+ b) = a +:+ rstrip b.
Proof.
  intros Hb. induction a as [|x a IH]; [done|].
  rewrite !str_app_cons, rstrip_cons_nonempty; rewrite IH; [done|].
  destruct a; [done|]. by rewrite str_app_cons.
Qed.

(** A stripped, non-empty string begins and ends with a character that
    is no white space. *)
Lemma stripped_parts k :
  strip k = k → lstrip k = k ∧ rstrip k = k.
Proof.
  intros Hk. split.
  - rewrite <- Hk at 2. rewrite <- strip_lstrip. by rewrite Hk.
  - rewrite <- Hk at 2. rewrite <- strip_rstrip. by rewrite Hk.
Qed.

Lemma lstrip_app_fixed k s : k ≠ "" → lstrip k = k → lstrip (k +:+ s) = k +:+ s.
Proof.
  intros Hne Hk. destruct k as [|c k]; [done|].
  rewrite str_app_cons. apply lstrip_fixed.
  pose proof (lstrip_head (String c k)) as Hhead. by rewrite Hk in Hhead.
Qed.

Lemma startswith_app c k s p :
  startswith (String c k +:+ s) (String p "") = startswith (String c k) (String p "").
Proof.
  unfold startswith. rewrite str_app_cons. simpl.
  destruct (ascii_dec p c); [|done]. by destruct (k +:+ s), k.
Qed.

(** The value side of a line: what is left of [pad3 v pad4] once the
    line is stripped on the right, and that it strips to [v]. *)
Lemma rstrip_value pad3 v pad4 :
  all_py_space pad3 = true → all_py_space pad4 = true → strip v = v →
  strip (rstrip (pad3 +:+ v +:+ pad4)) = v.
Proof.
  intros H3 H4 Hv. destruct (stripped_parts v Hv) as [Hl Hr].
  assert (rstrip (v +:+ pad4) = v) as Htail.
  { rewrite rstrip_app_empty by (by apply rstrip_space). done. }
  destruct (decide (v = "")) as [->|Hne].
  - rewrite rstrip_app_empty by done. by rewrite rstrip_space.
  - rewrite rstrip_app_nonempty by (by rewrite Htail).
    rewrite Htail. unfold strip. by rewrite lstrip_app_space, Hl, Hr.
Qed.

Lemma assignment_clean line k v :
  assignment line = Some (k, v) →
  strip k = k ∧ strip v = v ∧ has_eq k = false.
Proof.
  unfold assignment.
  destruct (bool_decide (strip line = "") || startswith (strip line) "#");
    [done|].
  destruct (split_eq (strip line)) as [[key value]|] eqn:Hsplit; [|done].
  intros [= <- <-]. apply split_eq_Some in Hsplit as [_ Hkey].
  by rewrite !strip_idem, has_eq_strip.
Qed.

Lemma assignment_noise line :
  strip line = "" ∨ startswith (strip line) "#" = true ∨ has_eq line = false →
  assignment line = None.
Proof.
  unfold assignment. intros [-> | [-> | Hno]].
  - done.
  - by rewrite orb_true_r.
  - destruct (bool_decide (strip line = "") || startswith (strip line) "#");
      [done|].
    by rewrite (proj2 (split_eq_None (strip line)) (has_eq_strip _ Hno)).
Qed.

Lemma foldl_read_line_other k lines (m : gmap string string) :
  (∀ line v, line ∈ lines → assignment line ≠ Some (k, v)) →
  foldl read_line m lines !! k = m !! k.
Proof.
  revert m. induction lines as [|l lines IH]; intros m Hother; [done|].
  simpl. rewrite IH.
  - rewrite read_line_assignment.
    destruct (assignment l) as [[k' v']|] eqn:Hl; [|done].
    apply lookup_insert_ne. intros ->.
    by apply (Hother l v'); [left|].
  - intros line v Hin. apply Hother. by right.
Qed.

Lemma foldl_read_line_inv (P : string → string → Prop) lines
    (m : gmap string string) :
  map_Forall P m →
  (∀ line k v, line ∈ lines → assignment line = Some (k, v) → P k v) →
  map_Forall P (foldl read_line m lines).
Proof.
  revert m. induction lines as [|l lines IH]; intros m Hm Hlines; [done|].
  simpl. apply IH.
  - rewrite read_line_assignment.
    destruct (assignment l) as [[k v]|] eqn:Hl; [|done].
    apply map_Forall_insert_2; [|done]. apply (Hlines l); [by left | done].
  - intros line k v Hin. apply Hlines. by right.
Qed.

Lemma load_api_keys_Some file keys :
  load_api_keys file = Some keys →
  ∃ lines, file = KeyLines lines ∧ keys = foldl read_line ∅ lines
           ∧ (is_Some (keys !! "GEMINI_API") ∨ is_Some (keys !! "CHATGPT_API")).
Proof.
  destruct file as [| e | lines]; [done..|]. simpl.
  destruct (bool_decide (is_Some (foldl read_line ∅ lines !! "GEMINI_API")))
    eqn:Hg; simpl.
  - intros [= <-]. exists lines. apply bool_decide_eq_true in Hg. auto.
  - destruct (bool_decide (is_Some (foldl read_line ∅ lines !! "CHATGPT_API")))
      eqn:Hc; simpl; [|done].
    intros [= <-]. exists lines. apply bool_decide_eq_true in Hc. auto.
Qed.

(** X1. A dict returned by [load_api_keys] names at least one of the two
    providers, so it is never empty and is true where the code tests
    [if api_keys]. *)
Theorem load_api_keys_names_a_provider file keys :
  load_api_keys file = Some keys →
  (is_Some (keys !! "GEMINI_API") ∨ is_Some (keys !! "CHATGPT_API"))
  ∧ keys ≠ ∅
  ∧ truthy_dict (load_api_keys file) = true.
Proof.
  intros Hload. rewrite Hload.
  destruct (load_api_keys_Some _ _ Hload) as (lines & _ & _ & Hnames).
  assert (keys ≠ ∅) as Hne.
  { intros ->. destruct Hnames as [[v Hv] | [v Hv]]; by rewrite lookup_empty in Hv. }
  split; [done|]. split; [done|]. simpl. by apply bool_decide_eq_true.
Qed.

Lemma load_api_keys_names_a_provider_witness :
  load_api_keys (KeyLines ["# keys"; "CHATGPT_API = sk-1"])
    = Some {["CHATGPT_API" := "sk-1"]}
  ∧ truthy_dict (load_api_keys (KeyLines ["# keys"; "CHATGPT_API = sk-1"])) = true.
Proof.
  assert (load_api_keys (KeyLines ["# keys"; "CHATGPT_API = sk-1"])
          = Some {["CHATGPT_API" := "sk-1"]}) as Hload.
  { vm_compute. reflexivity. }
  split; [exact Hload|].
  exact (proj2 (proj2 (load_api_keys_names_a_provider _ _ Hload))).
Defined.

(** X2. Every entry of the dict comes from a line of the file that
    assigns it, and its key and value carry no white space at either
    end; the key holds no [=]. *)
Theorem load_api_keys_entries file keys k v :
  load_api_keys file = Some keys →
  keys !! k = Some v →
  (∃ lines line,
     file = KeyLines lines ∧ line ∈ lines ∧ assignment line = Some (k, v))
  ∧ strip k = k ∧ strip v = v ∧ has_eq k = false.
Proof.
  intros (lines & -> & -> & _)%load_api_keys_Some Hkv.
  pose proof (foldl_read_line_inv
    (λ k v, (∃ line, line ∈ lines ∧ assignment line = Some (k, v))
            ∧ strip k = k ∧ strip v = v ∧ has_eq k = false)
    lines ∅) as Hinv.
  destruct (Hinv (map_Forall_empty _)) with (i := k) (x := v)
    as ((line & Hin & Hline) & Hclean); [|done|].
  - intros line k' v' Hin Hline. split; [eauto|].
    by apply (assignment_clean line).
  - split; [|done]. by exists lines, line.
Qed.

Lemma load_api_keys_entries_witness :
  load_api_keys (KeyLines ["  GEMINI_API =  a=b  "])
    = Some {["GEMINI_API" := "a=b"]}
  ∧ ({["GEMINI_API" := "a=b"]} : gmap string string) !! "GEMINI_API" = Some "a=b"
  ∧ strip "GEMINI_API" = "GEMINI_API" ∧ strip "a=b" = "a=b"
  ∧ has_eq "GEMINI_API" = false.
Proof.
  assert (load_api_keys (KeyLines ["  GEMINI_API =  a=b  "])
          = Some {["GEMINI_API" := "a=b"]}) as Hload.
  { vm_compute. reflexivity. }
  split; [exact Hload|]. split; [reflexivity|].
  exact (proj2 (load_api_keys_entries _ _ "GEMINI_API" "a=b" Hload eq_refl)).
Defined.

(** X3. A blank line, a comment line and a line without [=] change
    nothing, wherever they stand in the file. *)
Theorem load_api_keys_ignores_noise before line after :
  strip line = "" ∨ startswith (strip line) "#" = true ∨ has_eq line = false →
  load_api_keys (KeyLines (before ++ line :: after))
  = load_api_keys (KeyLines (before ++ after)).
Proof.
  intros Hnoise%assignment_noise. unfold load_api_keys.
  rewrite !foldl_app. simpl. by rewrite read_line_assignment, Hnoise.
Qed.

Lemma load_api_keys_ignores_noise_witness :
  has_eq "this line is malformed" = false
  ∧ load_api_keys (KeyLines (["GEMINI_API=k1"] ++ "this line is malformed" :: ["CHATGPT_API=k2"]))
    = load_api_keys (KeyLines (["GEMINI_API=k1"] ++ ["CHATGPT_API=k2"])).
Proof.
  split; [reflexivity|].
  apply load_api_keys_ignores_noise. right. right. reflexivity.
Defined.

(** X4. When a key is assigned more than once the last line wins. *)
Theorem load_api_keys_last_wins before line after k v keys :
  assignment line = Some (k, v) →
  (∀ later v', later ∈ after → assignment later ≠ Some (k, v')) →
  load_api_keys (KeyLines (before ++ line :: after)) = Some keys →
  keys !! k = Some v.
Proof.
  intros Hline Hafter (lines & [= <-] & -> & _)%load_api_keys_Some.
  rewrite foldl_app. simpl. rewrite foldl_read_line_other by done.
  rewrite read_line_assignment, Hline. apply lookup_insert_eq.
Qed.

Lemma load_api_keys_last_wins_witness :
  assignment "GEMINI_API = new" = Some ("GEMINI_API", "new")
  ∧ load_api_keys (KeyLines (["GEMINI_API=old"] ++ "GEMINI_API = new" :: ["# end"]))
    = Some {["GEMINI_API" := "new"]}
  ∧ ({["GEMINI_API" := "new"]} : gmap string string) !! "GEMINI_API" = Some "new".
Proof.
  assert (assignment "GEMINI_API = new" = Some ("GEMINI_API", "new")) as Hline.
  { vm_compute. reflexivity. }
  assert (load_api_keys (KeyLines (["GEMINI_API=old"] ++ "GEMINI_API = new" :: ["# end"]))
          = Some {["GEMINI_API" := "new"]}) as Hload.
  { vm_compute. reflexivity. }
  split; [exact Hline|]. split; [exact Hload|].
  apply (load_api_keys_last_wins ["GEMINI_API=old"] "GEMINI_API = new" ["# end"]
           "GEMINI_API" "new" _ Hline); [|exact Hload].
  intros later v' ->%list_elem_of_singleton. vm_compute. discriminate.
Defined.

(** X5. A line [KEY = value] may be padded with white space at both ends
    and around the first [=]; the value may itself hold [=].  Such a
    line assigns the bare value to the bare key. *)
Theorem assignment_padded pad1 k pad2 pad3 v pad4 :
  all_py_space pad1 = true → all_py_space pad2 = true →
  all_py_space pad3 = true → all_py_space pad4 = true →
  strip k = k → k ≠ "" → startswith k "#" = false → has_eq k = false →
  strip v = v →
  assignment (pad1 +:+ k +:+ pad2 +:+ "=" +:+ pad3 +:+ v +:+ pad4)
  = Some (k, v).
Proof.
  intros H1 H2 H3 H4 Hk Hne Hhash Hnoeq Hv.
  destruct (stripped_parts k Hk) as [Hkl Hkr].
  set (tail := pad3 +:+ v +:+ pad4).
  assert (rstrip ("=" +:+ tail) = "=" +:+ rstrip tail) as Heq.
  { by apply (rstrip_cons "="%char). }
  assert (rstrip (pad2 +:+ "=" +:+ tail) = pad2 +:+ "=" +:+ rstrip tail) as Hmid.
  { rewrite rstrip_app_nonempty; by rewrite Heq. }
  assert (strip (pad1 +:+ k +:+ pad2 +:+ "=" +:+ tail)
          = (k +:+ pad2) +:+ "=" +:+ rstrip tail) as Hline.
  { unfold strip. rewrite lstrip_app_space, lstrip_app_fixed by done.
    rewrite rstrip_app_nonempty, Hmid; [by rewrite str_app_assoc|].
    rewrite Hmid. by destruct pad2. }
  unfold assignment. rewrite Hline.
  assert (bool_decide ((k +:+ pad2) +:+ "=" +:+ rstrip tail = "") = false) as ->.
  { apply bool_decide_eq_false. by destruct k. }
  assert (startswith ((k +:+ pad2) +:+ "=" +:+ rstrip tail) "#" = false) as ->.
  { destruct k as [|c k]; [done|].
    rewrite str_app_assoc. by rewrite startswith_app. }
  simpl. rewrite split_eq_app.
  - f_equal. f_equal.
    + unfold strip. rewrite lstrip_app_fixed by done.
      rewrite rstrip_app_empty by (by apply rstrip_space). done.
    + by apply rstrip_value.
  - by rewrite has_eq_app, Hnoeq, has_eq_space.
Qed.

Lemma assignment_padded_witness :
  assignment ("  " +:+ "CHATGPT_API" +:+ " " +:+ "=" +:+ "	" +:+ "sk=1 2" +:+ " 
") = Some ("CHATGPT_API", "sk=1 2").
Proof.
  apply assignment_padded; try reflexivity. discriminate.
Defined.

(** ** Start-up *)

(** X6. After start-up a client exists exactly when the key file could
    be read, names that client's key, and the library accepted the key.
    A file that names only the other provider leaves this one
    unconfigured. *)
Theorem configure_clients_built libs net file :
  let w := configure_clients libs net file in
  (∀ model,
     gemini_model w = Some model
     ↔ ∃ keys key, load_api_keys file = Some keys
                   ∧ keys !! "GEMINI_API" = Some key
                   ∧ new_gemini_model libs key = Return model)
  ∧ (∀ client,
       openai_client w = Some client
       ↔ ∃ keys key, load_api_keys file = Some keys
                     ∧ keys !! "CHATGPT_API" = Some key
                     ∧ new_openai_client libs key = Return client)
  ∧ api_keys w = load_api_keys file
  ∧ http_get w = net.
Proof.
  unfold configure_clients.
  destruct (load_api_keys file) as [keys|] eqn:Hload; simpl.
  - destruct (load_api_keys_names_a_provider _ _ Hload) as (_ & Hne & _).
    rewrite bool_decide_eq_true_2 by done. simpl.
    split; [|split; [|done]].
    + intros model. split.
      * destruct (keys !! "GEMINI_API") as [key|] eqn:Hkey; [|done].
        destruct (new_gemini_model libs key) eqn:Hnew; [|done].
        intros [= <-]. by exists keys, key.
      * intros (keys' & key & [= <-] & -> & ->). done.
    + intros client. split.
      * destruct (keys !! "CHATGPT_API") as [key|] eqn:Hkey; [|done].
        destruct (new_openai_client libs key) eqn:Hnew; [|done].
        intros [= <-]. by exists keys, key.
      * intros (keys' & key & [= <-] & -> & ->). done.
  - split; [|split; [|done]].
    + intros model. split; [done|]. by intros (? & ? & ? & _).
    + intros client. split; [done|]. by intros (? & ? & ? & _).
Qed.

Lemma configure_clients_api_keys libs net file :
  truthy_dict (api_keys (configure_clients libs net file)) = false →
  gemini_model (configure_clients libs net file) = None
  ∧ openai_client (configure_clients libs net file) = None.
Proof.
  unfold configure_clients.
  destruct (truthy_dict (load_api_keys file)) eqn:Htruthy; simpl; [|done].
  by rewrite Htruthy.
Qed.

(** X7. After start-up [print_cli_banner] returns [True], and the server
    is started, exactly when some client was built; the test on
    [api_keys] adds nothing.  On a started server a request is never
    answered "not configured": status 500 then always means the
    internal-error answer.  Where the banner returns [False] every
    request is answered 500 and nothing is called. *)
Theorem print_cli_banner_gate libs net file request tr :
  let w := configure_clients libs net file in
  (print_cli_banner w = true
   ↔ is_Some (gemini_model w) ∨ is_Some (openai_client w))
  ∧ (print_cli_banner w = true →
     ∀ body tr',
       analyze w request tr = (Return (body, 500), tr') →
       body = {["error" := PStr "An internal server error occurred."]} ∧ tr' = tr)
  ∧ (print_cli_banner w = false →
     analyze w request tr
     = (Return ({["error" := PStr "Server is not configured with at least one valid API key."]},
                500), tr)).
Proof.
  intros w.
  assert (print_cli_banner w = negb (not_configured w)) as Hbanner.
  { unfold print_cli_banner, not_configured. by destruct (_ || _). }
  assert (not_configured w = false
          ↔ is_Some (gemini_model w) ∨ is_Some (openai_client w)) as Hgate.
  { unfold not_configured.
    destruct (truthy_dict (api_keys w)) eqn:Htruthy; simpl.
    - destruct (gemini_model w), (openai_client w); simpl;
        rewrite ?bool_decide_eq_true_2, ?bool_decide_eq_false_2
          by (eauto || by intros [? ?]); simpl;
        split; try done; eauto; by intros [[? ?]|[? ?]].
    - destruct (configure_clients_api_keys libs net file Htruthy) as [Hg Ho].
      fold w in Hg, Ho. rewrite Hg, Ho.
      split; [done|]. by intros [[? ?]|[? ?]]. }
  split; [|split].
  - rewrite Hbanner, negb_true_iff. exact Hgate.
  - rewrite Hbanner, negb_true_iff. intros Hconf body tr'.
    rewrite analyze_run, Hconf.
    destruct (get_json request) as [[d|]|e]; try by intros [= <- <-].
    destruct (d !! "url") as [url|]; [|done].
    destruct (bool_decide (url = "")); [done|].
    rewrite perform_analysis_run.
    by destruct (fetch_outcome w url).
  - rewrite Hbanner, negb_false_iff. intros Hconf.
    by rewrite analyze_run, Hconf.
Qed.

(** ** The route, the helper and the fetch *)

(** X8. The route answers every request: it never raises, its status is
    200, 400 or 500, the body holds the key [error] exactly when the
    status is not 200, and the calls made before the request stay at
    the head of the log. *)
Theorem analyze_always_answers w request tr :
  ∃ body status calls,
    analyze w request tr = (Return (body, status), tr ++ calls)
    ∧ (status = 200 ∨ status = 400 ∨ status = 500)
    ∧ (is_Some (body !! "error") ↔ status ≠ 200).
Proof.
  rewrite analyze_run.
  assert (∀ msg : string, is_Some (({["error" := PStr msg]} : gmap string pyval) !! "error"))
    as Herr.
  { intros msg. rewrite lookup_singleton_eq. eauto. }
  destruct (not_configured w).
  { eexists _, _, []. rewrite app_nil_r.
    split; [done|]. split; [auto|]. split; [done | intros _; apply Herr]. }
  destruct (get_json request) as [[d|]|e];
    try (eexists _, _, []; rewrite app_nil_r;
         split; [done|]; split; [auto|]; split; [done | intros _; apply Herr]).
  destruct (d !! "url") as [url|];
    [|eexists _, _, []; rewrite app_nil_r;
      split; [done|]; split; [auto|]; split; [done | intros _; apply Herr]].
  destruct (bool_decide (url = ""));
    [eexists _, _, []; rewrite app_nil_r;
     split; [done|]; split; [auto|]; split; [done | intros _; apply Herr]|].
  rewrite perform_analysis_run.
  destruct (fetch_outcome w url) as [source_code|e].
  - eexists _, _, _. split; [done|]. split; [auto|].
    rewrite merged_other by done. split; [by intros [? ?] | done].
  - eexists _, _, _. split; [done|]. split; [auto|].
    split; [done | intros _; apply Herr].
Qed.

(** X9. A request that cannot be analysed is answered without any
    network call: 400 when [url] is missing, null or empty, 500 when
    the body cannot be read as JSON or is not a JSON object. *)
Theorem analyze_rejects_bad_requests w request tr :
  not_configured w = false →
  (∀ d, get_json request = Return (JsonObject d) →
        d !! "url" = None ∨ d !! "url" = Some "" →
        analyze w request tr
        = (Return ({["error" := PStr "URL is required."]}, 400), tr))
  ∧ ((get_json request = Return JsonOther ∨ ∃ e, get_json request = Raise e) →
     analyze w request tr
     = (Return ({["error" := PStr "An internal server error occurred."]}, 500), tr)).
Proof.
  intros Hconf. split.
  - intros d Hjson Hurl. rewrite analyze_run, Hconf, Hjson.
    by destruct Hurl as [-> | ->].
  - intros Hbody. rewrite analyze_run, Hconf.
    by destruct Hbody as [-> | [e ->]].
Qed.

Lemma analyze_rejects_bad_requests_witness :
  not_configured world_ok = false
  ∧ analyze world_ok {| get_json := Return (JsonObject {["ai_choice" := "both"]}) |} []
    = (Return ({["error" := PStr "URL is required."]}, 400), [])
  ∧ analyze world_ok {| get_json := Return JsonOther |} []
    = (Return ({["error" := PStr "An internal server error occurred."]}, 500), []).
Proof.
  split; [reflexivity|].
  destruct (analyze_rejects_bad_requests world_ok
              {| get_json := Return (JsonObject {["ai_choice" := "both"]}) |} []
              eq_refl) as [Hurl _].
  destruct (analyze_rejects_bad_requests world_ok
              {| get_json := Return JsonOther |} [] eq_refl) as [_ Hbody].
  split.
  - apply (Hurl {["ai_choice" := "both"]} eq_refl). left. reflexivity.
  - apply Hbody. left. reflexivity.
Defined.

Lemma print_cli_banner_gate_witness :
  print_cli_banner
    (configure_clients
       {| new_gemini_model := λ _, Raise (Exception "bad key");
          new_openai_client := λ _, Return {| chat_completions_create :=
                                                λ _ _ _, Return [PStr "ok"] |} |}
       (http_get world_ok)
       (KeyLines ["GEMINI_API=g"; "CHATGPT_API=c"])) = true
  ∧ print_cli_banner
      (configure_clients
         {| new_gemini_model := λ _, Raise (Exception "bad key");
            new_openai_client := λ _, Raise (Exception "bad key") |}
         (http_get world_ok)
         (KeyLines ["GEMINI_API=g"; "CHATGPT_API=c"])) = false
  ∧ analyze
      (configure_clients
         {| new_gemini_model := λ _, Raise (Exception "bad key");
            new_openai_client := λ _, Raise (Exception "bad key") |}
         (http_get world_ok)
         (KeyLines ["GEMINI_API=g"; "CHATGPT_API=c"]))
      (request_of "http://good.example" "both") []
    = (Return ({["error" := PStr "Server is not configured with at least one valid API key."]},
               500), []).
Proof.
  split; [vm_compute; reflexivity|].
  split; [vm_compute; reflexivity|].
  destruct (print_cli_banner_gate
              {| new_gemini_model := λ _, Raise (Exception "bad key");
                 new_openai_client := λ _, Raise (Exception "bad key") |}
              (http_get world_ok)
              (KeyLines ["GEMINI_API=g"; "CHATGPT_API=c"])
              (request_of "http://good.example" "both") []) as (_ & _ & Hoff).
  apply Hoff. vm_compute. reflexivity.
Defined.

(** X10. The fetch returns a text exactly when the GET came back with a
    status from 200 to 299; the text is then the body of that response,
    unchanged. *)
Theorem fetch_succeeds_iff_2xx w url tr text tr' :
  fetch_website_content w url tr = (Return text, tr')
  ↔ ∃ r, http_get w url = Return r
         ∧ 200 ≤ status_code_of r ≤ 299
         ∧ text = text_of r
         ∧ tr' = tr ++ [HttpGet url].
Proof.
  rewrite fetch_website_content_run. unfold fetch_outcome, is_success. split.
  - destruct (http_get w url) as [r|e].
    + destruct (Z.leb_spec 200 (status_code_of r)),
               (Z.leb_spec (status_code_of r) 299); simpl; try done.
      intros [= <- <-]. exists r. repeat split; done.
    + by destruct e.
  - intros (r & -> & [Hlo Hhi] & -> & ->).
    apply Z.leb_le in Hlo, Hhi. by rewrite Hlo, Hhi.
Qed.

(** X11. An exception of the GET that is neither an [HTTPStatusError]
    nor a [RequestError] leaves the fetch as it is, and the helper
    answers 400 with that exception's own message. *)
Theorem fetch_passes_other_exceptions w url ai_choice sys tr e :
  http_get w url = Raise e →
  (∀ code msg, e ≠ HTTPStatusError code msg) →
  (∀ kind msg, e ≠ RequestError kind msg) →
  fetch_website_content w url tr = (Raise e, tr ++ [HttpGet url])
  ∧ perform_analysis w url ai_choice sys tr
    = (Return ({["error" := PStr (str e)]}, 400), tr ++ [HttpGet url]).
Proof.
  intros Hget Hstatus Hrequest.
  assert (fetch_outcome w url = Raise e) as Hfetch.
  { unfold fetch_outcome. rewrite Hget.
    destruct e as [code msg | kind msg | | msg | msg]; try done.
    - by destruct (Hstatus code msg).
    - by destruct (Hrequest kind msg). }
  by rewrite fetch_website_content_run, perform_analysis_run, Hfetch.
Qed.

Lemma fetch_passes_other_exceptions_witness :
  fetch_website_content
    {| http_get := λ _, Raise (Exception "Invalid URL");
       api_keys := api_keys world_ok;
       gemini_model := gemini_model world_ok;
       openai_client := openai_client world_ok |} "not a url" []
    = (Raise (Exception "Invalid URL"), [HttpGet "not a url"])
  ∧ perform_analysis
      {| http_get := λ _, Raise (Exception "Invalid URL");
         api_keys := api_keys world_ok;
         gemini_model := gemini_model world_ok;
         openai_client := openai_client world_ok |} "not a url" (Some "both")
      AI_SYSTEM_PROMPT []
    = (Return ({["error" := PStr "Invalid URL"]}, 400), [HttpGet "not a url"]).
Proof.
  apply (fetch_passes_other_exceptions
           {| http_get := λ _, Raise (Exception "Invalid URL");
              api_keys := api_keys world_ok;
              gemini_model := gemini_model world_ok;
              openai_client := openai_client world_ok |}
           "not a url" (Some "both") AI_SYSTEM_PROMPT []
           (Exception "Invalid URL") eq_refl);
    intros; discriminate.
Defined.

(** X12. The calls of one analysis: the GET comes first and is the only
    GET; at most two calls follow it; Gemini is called exactly when the
    fetch succeeded, [ai_choice] selects it and its client exists, and
    then once; the same holds for OpenAI. *)
Theorem perform_analysis_calls w url ai_choice sys tr :
  ∃ result calls,
    perform_analysis w url ai_choice sys tr
    = (result, tr ++ HttpGet url :: calls)
    ∧ (∀ u, HttpGet u ∉ calls)
    ∧ (length calls ≤ 2)%nat
    ∧ (∀ q, GeminiGenerate q ∈ calls
            ↔ (∃ source_code,
                 fetch_website_content w url tr
                 = (Return source_code, tr ++ [HttpGet url])
                 ∧ q = gemini_full_prompt (user_prompt url source_code) sys)
              ∧ selects_gemini ai_choice = true
              ∧ is_Some (gemini_model w))
    ∧ (∀ m s q, OpenAICreate m s q ∈ calls
            ↔ (∃ source_code,
                 fetch_website_content w url tr
                 = (Return source_code, tr ++ [HttpGet url])
                 ∧ q = user_prompt url source_code)
              ∧ m = "gpt-4o-mini" ∧ s = sys
              ∧ selects_chatgpt ai_choice = true
              ∧ is_Some (openai_client w))
    ∧ NoDup calls.
Proof.
  rewrite perform_analysis_run, fetch_website_content_run.
  destruct (fetch_outcome w url) as [source_code|e].
  - eexists _, _. split; [reflexivity|].
    unfold provider_calls, gemini_calls, openai_calls.
    destruct (selects_gemini ai_choice), (selects_chatgpt ai_choice),
             (gemini_model w), (openai_client w); simpl;
      (split; [intros u; rewrite ?elem_of_cons, elem_of_nil; naive_solver|]);
      (split; [lia|]);
      (split; [intros q; rewrite ?elem_of_cons, elem_of_nil; split;
               [intros H; repeat destruct H as [H|H]; try done;
                injection H as ->; eauto 10
               |intros ((src & [= <-] & ->) & Hsel & [? Hm]); try done; auto]|]);
      (split; [intros m s q; rewrite ?elem_of_cons, elem_of_nil; split;
               [intros H; repeat destruct H as [H|H]; try done;
                injection H as -> -> ->; eauto 10
               |intros ((src & [= <-] & ->) & -> & -> & Hsel & [? Hm]);
                try done; auto]|]);
      repeat constructor; rewrite ?elem_of_cons, ?elem_of_nil; naive_solver.
  - exists (Return ({["error" := PStr (str e)]}, 400)), [].
    split; [reflexivity|]. split; [intros u; apply not_elem_of_nil|].
    split; [simpl; lia|].
    split; [intros q; rewrite elem_of_nil; split; [done|];
            by intros ((src & [=] & _) & _)|].
    split; [intros m s q; rewrite elem_of_nil; split; [done|];
            by intros ((src & [=] & _) & _)|].
    constructor.
Qed.

(** ** More on the result formatter *)

Section page_more.
Import Page.

Lemma match_skip_prefix r p s :
  (∀ i, (i < String.length p)%nat →
        matcher r None (skip i (p +:+ s)) (λ cap _, Some cap) = None) →
  match_ r (p +:+ s) = match_ r s.
Proof.
  induction p as [|c p IH]; intros Hnone; [done|].
  rewrite match_unfold.
  pose proof (Hnone 0%nat ltac:(simpl; lia)) as Hhere. simpl in Hhere.
  rewrite Hhere. apply IH. intros i Hi.
  apply (Hnone (S i)). simpl. lia.
Qed.

Lemma verdictMatch_gemini_error msg :
  verdictMatch ("Error during Gemini analysis: " +:+ msg) = verdictMatch msg.
Proof.
  apply match_skip_prefix. intros i Hi. rewrite matcher_verdict.
  do 30 (destruct i as [|i]; [vm_compute; reflexivity|]).
  simpl in Hi. lia.
Qed.

Lemma verdictMatch_openai_error msg :
  verdictMatch ("Error during OpenAI analysis: " +:+ msg) = verdictMatch msg.
Proof.
  apply match_skip_prefix. intros i Hi. rewrite matcher_verdict.
  do 30 (destruct i as [|i]; [vm_compute; reflexivity|]).
  simpl in Hi. lia.
Qed.

Lemma verdict_of_match a b :
  verdictMatch a = verdictMatch b →
  verdict a = verdict b ∧ verdictClass a = verdictClass b.
Proof. unfold verdictClass, verdict. by intros ->. Qed.

(** X13. What the page makes of a failed provider.  The string an
    adapter returns for a backend exception does not begin with
    [Error:], so [formatResult] shows it as an ordinary result card; the
    verdict on the card is read from the exception's message alone.  The
    string for a missing client does begin with [Error:] and is shown as
    an error paragraph. *)
Theorem failed_provider_rendering w p sys tr :
  (∀ model e,
     gemini_model w = Some model →
     generate_content_async model (gemini_full_prompt p sys) = Raise e →
     ∃ (v : string) tr',
       analyze_with_gemini w p sys tr = (Return (PStr v), tr')
       ∧ formatResult v = card_html (verdictClass v) (verdict v) (reasoning v)
       ∧ verdict v = verdict (str e)
       ∧ verdictClass v = verdictClass (str e))
  ∧ (∀ client e,
       openai_client w = Some client →
       chat_completions_create client "gpt-4o-mini" sys p = Raise e →
       ∃ (v : string) tr',
         analyze_with_openai w p sys tr = (Return (PStr v), tr')
         ∧ formatResult v = card_html (verdictClass v) (verdict v) (reasoning v)
         ∧ verdict v = verdict (str e)
         ∧ verdictClass v = verdictClass (str e))
  ∧ (gemini_model w = None →
     ∃ v : string, analyze_with_gemini w p sys tr = (Return (PStr v), tr)
          ∧ formatResult v = error_html v)
  ∧ (openai_client w = None →
     ∃ v : string, analyze_with_openai w p sys tr = (Return (PStr v), tr)
          ∧ formatResult v = error_html v).
Proof.
  split; [|split; [|split]].
  - intros model e Hm He. eexists _, _.
    rewrite analyze_with_gemini_run. split; [reflexivity|].
    unfold gemini_value. rewrite Hm, He.
    destruct (verdict_of_match _ _ (verdictMatch_gemini_error (str e))) as [-> ->].
    done.
  - intros client e Hc He.
    rewrite analyze_with_openai_run. unfold openai_value. rewrite Hc, He.
    eexists _, _. split; [reflexivity|].
    destruct (verdict_of_match _ _ (verdictMatch_openai_error (str e))) as [-> ->].
    done.
  - intros Hnone. eexists. unfold analyze_with_gemini. rewrite Hnone.
    split; reflexivity.
  - intros Hnone. eexists. unfold analyze_with_openai. rewrite Hnone.
    split; reflexivity.
Qed.

Lemma failed_provider_rendering_witness :
  (∃ (v : string) tr',
     analyze_with_gemini world_gemini_down "prompt" "system" []
     = (Return (PStr v), tr')
     ∧ formatResult v = card_html (verdictClass v) (verdict v) (reasoning v)
     ∧ verdict v = "Unknown")
  ∧ (∃ v : string,
       analyze_with_openai world_ok "prompt" "system" [] = (Return (PStr v), [])
          ∧ formatResult v = error_html v).
Proof.
  destruct (failed_provider_rendering world_gemini_down "prompt" "system" [])
    as (Hgemini & _).
  destruct (failed_provider_rendering world_ok "prompt" "system" [])
    as (_ & _ & _ & Hopenai).
  split; [|exact (Hopenai eq_refl)].
  destruct (Hgemini _ (Exception "503 unavailable") eq_refl eq_refl)
    as (v & tr' & Hrun & Hcard & Hverdict & _).
  exists v, tr'. split; [exact Hrun|]. split; [exact Hcard|].
  rewrite Hverdict. vm_compute. reflexivity.
Defined.

(** X14. The verdict shown and its colour class always agree: either
    the text holds no verdict and the card reads [Unknown] with no
    class, or the verdict reads [Safe] in some casing with the class
    [verdict-safe], or it reads [Phishing] with [verdict-phishing].  In
    particular [undefined] is never shown. *)
Theorem verdict_and_class_agree text :
  (verdict text = "Unknown" ∧ verdictClass text = ""
   ∧ ∀ i w, ¬ verdict_occurs text i w)
  ∨ (ci_eq (verdict text) "Safe" ∧ verdictClass text = "verdict-safe")
  ∨ (ci_eq (verdict text) "Phishing" ∧ verdictClass text = "verdict-phishing").
Proof.
  destruct (verdictMatch text) as [res|] eqn:Hmatch.
  - right.
    destruct (match_some _ _ _ Hmatch) as (i & Hi & Hat & _).
    rewrite matcher_verdict in Hat.
    destruct (verdict_at (skip i text)) as [w|] eqn:Hw; [|done].
    injection Hat as <-.
    assert (verdict_occurs text i w) as Hocc by (by apply verdict_occurs_at).
    assert (verdict text = w) as Hv by (unfold verdict; by rewrite Hmatch).
    destruct Hocc as (_ & _ & _ & _ & _ & _ & _ & _ & [Hsafe | Hphishing]).
    + left. rewrite Hv. split; [done|]. by apply (verdictClass_safe text w).
    + right. rewrite Hv. split; [done|]. by apply (verdictClass_phishing text w).
  - left. unfold verdict, verdictClass. rewrite Hmatch.
    split; [done|]. split; [done|].
    intros i w (j & w' & _ & _ & Hsome)%verdictMatch_some.
    by rewrite Hmatch in Hsome.
Qed.

End page_more.

(** ** The submit handler *)

Section form_facts.
Import Form.

(** X15. However the request ends, the handler leaves the button enabled
    and labelled [Analyze] and the spinner hidden; and it shows either
    the error message or the results container, never both and never
    neither. *)
Theorem on_submit_settles response u :
  let u' := on_submit response u in
  checkButton_disabled u' = false
  ∧ checkButton_textContent u' = "Analyze"
  ∧ loadingSpinner_hidden u' = true
  ∧ loadingSpinner_flex u' = false
  ∧ errorMessage_hidden u' = negb (resultsContainer_hidden u').
Proof.
  unfold on_submit, try_block.
  destruct response as [[[] [data|message]]|message]; simpl; try done.
  unfold show_results, show_chatgpt, show_gemini. simpl.
  destruct (data !! "gemini") as [[g|]|], (data !! "chatgpt") as [[c|]|]; simpl;
    repeat (destruct (bool_decide _); simpl); done.
Qed.

(** X16. When the request fails the page shows the message and no card:
    the message of the exception when [fetch] or [response.json()]
    threw, and for an answer that is not [ok] the [error] field of its
    body, or a fixed text when that field is missing, null or empty. *)
Theorem on_submit_shows_error response u :
  let u' := on_submit response u in
  let shows message :=
    errorMessage_hidden u' = false
    ∧ errorMessage_textContent u' = message
    ∧ resultsContainer_hidden u' = true
    ∧ geminiCard_hidden u' = true
    ∧ chatgptCard_hidden u' = true in
  (∀ message, response = Thrown message → shows message)
  ∧ (∀ is_ok message,
       response = Resolved {| ok := is_ok; json := Thrown message |} →
       shows message)
  ∧ (∀ errData message,
       response = Resolved {| ok := false; json := Resolved errData |} →
       errData !! "error" = Some (PStr message) → message ≠ "" →
       shows message)
  ∧ (∀ errData,
       response = Resolved {| ok := false; json := Resolved errData |} →
       errData !! "error" = None ∨ errData !! "error" = Some (PStr "")
       ∨ errData !! "error" = Some PNone →
       shows "An unknown server error occurred.").
Proof.
  unfold on_submit, try_block. split; [|split; [|split]].
  - by intros message ->.
  - by intros [] message ->.
  - intros errData message -> Herr Hne. simpl. rewrite Herr. simpl.
    by rewrite bool_decide_eq_false_2.
  - intros errData -> Herr. simpl. by destruct Herr as [-> | [-> | ->]].
Qed.

Lemma on_submit_shows_error_witness :
  errorMessage_textContent
    (on_submit (Resolved {| ok := false;
                            json := Resolved {["error" := PStr "URL is required."]} |})
       {| checkButton_disabled := false; checkButton_textContent := "Analyze";
          loadingSpinner_hidden := true; loadingSpinner_flex := false;
          resultsContainer_hidden := false;
          errorMessage_hidden := true; errorMessage_textContent := "";
          geminiCard_hidden := false; geminiResult_innerHTML := "old";
          chatgptCard_hidden := true; chatgptResult_innerHTML := "" |})
  = "URL is required.".
Proof.
  destruct (on_submit_shows_error
              (Resolved {| ok := false;
                           json := Resolved {["error" := PStr "URL is required."]} |})
              {| checkButton_disabled := false; checkButton_textContent := "Analyze";
                 loadingSpinner_hidden := true; loadingSpinner_flex := false;
                 resultsContainer_hidden := false;
                 errorMessage_hidden := true; errorMessage_textContent := "";
                 geminiCard_hidden := false; geminiResult_innerHTML := "old";
                 chatgptCard_hidden := true; chatgptResult_innerHTML := "" |})
    as (_ & _ & Herr & _).
  exact (proj1 (proj2 (Herr _ "URL is required." eq_refl eq_refl
                         ltac:(discriminate)))).
Defined.

(** X17. For an answer that is [ok] the page shows the results container
    and no error.  A provider's card is shown exactly when the body
    holds a non-empty string under its key, and then holds
    [formatResult] of that string; a key that is missing, or holds
    [null] or the empty string, leaves the card hidden with its old
    content. *)
Theorem on_submit_shows_cards data u :
  let u' := on_submit (Resolved {| ok := true; json := Resolved data |}) u in
  resultsContainer_hidden u' = false
  ∧ errorMessage_hidden u' = true
  ∧ errorMessage_textContent u' = errorMessage_textContent u
  ∧ geminiCard_hidden u' = negb (truthy (data !! "gemini"))
  ∧ chatgptCard_hidden u' = negb (truthy (data !! "chatgpt"))
  ∧ geminiResult_innerHTML u'
    = (if truthy (data !! "gemini")
       then Page.formatResult (text_of (data !! "gemini"))
       else geminiResult_innerHTML u)
  ∧ chatgptResult_innerHTML u'
    = (if truthy (data !! "chatgpt")
       then Page.formatResult (text_of (data !! "chatgpt"))
       else chatgptResult_innerHTML u).
Proof.
  unfold on_submit, try_block, show_results, show_chatgpt, show_gemini. simpl.
  destruct (data !! "gemini") as [[g|]|], (data !! "chatgpt") as [[c|]|]; simpl;
    repeat (destruct (bool_decide _); simpl); done.
Qed.

Lemma request_of_fields url choice :
  get_json (request_of url choice)
  = Return (JsonObject (<["url" := url]> (<["ai_choice" := choice]> ∅)))
  ∧ (<["url" := url]> (<["ai_choice" := choice]> ∅) : gmap string string) !! "url"
    = Some url
  ∧ (<["url" := url]> (<["ai_choice" := choice]> ∅) : gmap string string)
      !! "ai_choice" = Some choice.
Proof.
  split; [done|]. split; [apply lookup_insert_eq|].
  rewrite lookup_insert_ne by done. apply lookup_insert_eq.
Qed.

(** X18. From the form to the page.  For a server with some client and a
    non-empty URL: when the fetch succeeds the page shows the results
    container and no error, and a provider's card is shown exactly when
    the provider is selected and its adapter returned a non-empty
    string, the card then holding [formatResult] of that string; so a
    choice that selects no provider, or a provider that answers with
    the empty string or with [None], gives a page with no card and no
    error.  When the
    fetch fails the page shows the fetch error, or the fixed text when
    that error has an empty message. *)
Theorem submit_end_to_end w url choice u tr :
  not_configured w = false →
  url ≠ "" →
  ∃ body status calls,
    analyze w (request_of url choice) tr = (Return (body, status), tr ++ calls)
    ∧ let u' := on_submit (response_of body status) u in
      (∀ source_code tr0,
         fetch_website_content w url tr = (Return source_code, tr0) →
         let p := user_prompt url source_code in
         resultsContainer_hidden u' = false
         ∧ errorMessage_hidden u' = true
         ∧ (∀ g t t',
              analyze_with_gemini w p AI_SYSTEM_PROMPT t = (Return g, t') →
              geminiCard_hidden u'
              = negb (selects_gemini (Some choice) && truthy (Some g))
              ∧ (geminiCard_hidden u' = false →
                 geminiResult_innerHTML u' = Page.formatResult (text_of (Some g))))
         ∧ (∀ c t t',
              analyze_with_openai w p AI_SYSTEM_PROMPT t = (Return c, t') →
              chatgptCard_hidden u'
              = negb (selects_chatgpt (Some choice) && truthy (Some c))
              ∧ (chatgptCard_hidden u' = false →
                 chatgptResult_innerHTML u' = Page.formatResult (text_of (Some c)))))
      ∧ (∀ e tr0,
           fetch_website_content w url tr = (Raise e, tr0) →
           errorMessage_hidden u' = false
           ∧ resultsContainer_hidden u' = true
           ∧ geminiCard_hidden u' = true
           ∧ chatgptCard_hidden u' = true
           ∧ errorMessage_textContent u'
             = if bool_decide (str e = "")
               then "An unknown server error occurred." else str e).
Proof.
  intros Hconf Hurl.
  destruct (request_of_fields url choice) as (Hjson & Hu & Hc).
  rewrite analyze_run, Hconf, Hjson, Hu, Hc.
  rewrite bool_decide_eq_false_2 by done.
  rewrite perform_analysis_run.
  destruct (fetch_outcome w url) as [source_code|e] eqn:Hfetch.
  - eexists _, _, _. split; [reflexivity|]. intros u'. split.
    + intros src tr0 [Hsrc _]%fetch_succeeded.
      rewrite Hfetch in Hsrc. injection Hsrc as <-. intros p.
      destruct (on_submit_shows_cards
                  (merged w (Some choice) p AI_SYSTEM_PROMPT) u)
        as (Hres & Herr & _ & Hg & Hc' & Hgh & Hch).
      subst u' p. unfold response_of.
      change ((200 <=? 200) && (200 <=? 299)) with true.
      rewrite merged_gemini in Hg, Hgh. rewrite merged_chatgpt in Hc', Hch.
      split; [done|]. split; [done|]. split.
      * intros g t t'. rewrite analyze_with_gemini_run. intros [= <- _].
        rewrite Hg, Hgh. destruct (selects_gemini (Some choice)); simpl; [|done].
        split; [done|]. by destruct (bool_decide _).
      * intros c t t'. rewrite analyze_with_openai_run. intros [= <- _].
        rewrite Hc', Hch. destruct (selects_chatgpt (Some choice)); simpl; [|done].
        split; [done|].
        destruct (openai_value w _ _) as [s|]; simpl; [|done].
        by destruct (bool_decide _).
    + intros e tr0 [He _]%fetch_failed. by rewrite Hfetch in He.
  - eexists _, _, _. split; [reflexivity|]. intros u'. split.
    + intros src tr0 [Hsrc _]%fetch_succeeded. by rewrite Hfetch in Hsrc.
    + intros e' tr0 [He _]%fetch_failed. rewrite Hfetch in He.
      injection He as <-. subst u'. unfold on_submit, response_of, try_block.
      simpl. rewrite lookup_singleton_eq. simpl.
      by destruct (bool_decide (str e = "")).
Qed.

Lemma submit_end_to_end_witness :
  not_configured world_ok = false
  ∧ ∃ body status calls,
      analyze world_ok (request_of "http://good.example" "none") []
      = (Return (body, status), [] ++ calls)
      ∧ resultsContainer_hidden
          (on_submit (response_of body status)
             {| checkButton_disabled := false; checkButton_textContent := "Analyze";
                loadingSpinner_hidden := true; loadingSpinner_flex := false;
                resultsContainer_hidden := true;
                errorMessage_hidden := true; errorMessage_textContent := "";
                geminiCard_hidden := true; geminiResult_innerHTML := "";
                chatgptCard_hidden := true; chatgptResult_innerHTML := "" |})
        = false
      ∧ errorMessage_hidden
          (on_submit (response_of body status)
             {| checkButton_disabled := false; checkButton_textContent := "Analyze";
                loadingSpinner_hidden := true; loadingSpinner_flex := false;
                resultsContainer_hidden := true;
                errorMessage_hidden := true; errorMessage_textContent := "";
                geminiCard_hidden := true; geminiResult_innerHTML := "";
                chatgptCard_hidden := true; chatgptResult_innerHTML := "" |})
        = true.
Proof.
  split; [reflexivity|].
  destruct (submit_end_to_end world_ok "http://good.example" "none"
              {| checkButton_disabled := false; checkButton_textContent := "Analyze";
                 loadingSpinner_hidden := true; loadingSpinner_flex := false;
                 resultsContainer_hidden := true;
                 errorMessage_hidden := true; errorMessage_textContent := "";
                 geminiCard_hidden := true; geminiResult_innerHTML := "";
                 chatgptCard_hidden := true; chatgptResult_innerHTML := "" |}
              [] eq_refl ltac:(discriminate))
    as (body & status & calls & Hrun & Hok & _).
  exists body, status, calls. split; [exact Hrun|].
  destruct (Hok "<html>ok</html>" [HttpGet "http://good.example"] eq_refl)
    as (Hres & Herr & _).
  split; [exact Hres | exact Herr].
Defined.

End form_facts.

(** ** More on the helper *)

(** X19. Selecting both providers gives exactly the two answers each
    selected alone would give, merged: the entry of a provider does not
    depend on whether the other one was asked. *)
Theorem both_is_the_two_alone w url sys tr source_code tr0 :
  fetch_website_content w url tr = (Return source_code, tr0) →
  ∃ both gemini chatgpt tr1 tr2 tr3,
    perform_analysis w url (Some "both") sys tr = (Return (both, 200), tr1)
    ∧ perform_analysis w url (Some "gemini") sys tr = (Return (gemini, 200), tr2)
    ∧ perform_analysis w url (Some "chatgpt") sys tr = (Return (chatgpt, 200), tr3)
    ∧ both = gemini ∪ chatgpt
    ∧ both !! "gemini" = gemini !! "gemini"
    ∧ both !! "chatgpt" = chatgpt !! "chatgpt"
    ∧ gemini !! "chatgpt" = None
    ∧ chatgpt !! "gemini" = None.
Proof.
  intros [Hfetch _]%fetch_succeeded.
  eexists _, _, _, _, _, _. rewrite !perform_analysis_run, Hfetch.
  split; [reflexivity|]. split; [reflexivity|]. split; [reflexivity|].
  rewrite !merged_gemini, !merged_chatgpt.
  split; [|done].
  apply map_eq. intros k. rewrite lookup_union.
  destruct (decide (k = "gemini")) as [->|Hg].
  - by rewrite !merged_gemini.
  - destruct (decide (k = "chatgpt")) as [->|Hc].
    + by rewrite !merged_chatgpt.
    + by rewrite !merged_other.
Qed.

Lemma both_is_the_two_alone_witness :
  fetch_website_content world_both_up "http://good.example" []
    = (Return "<html>ok</html>", [HttpGet "http://good.example"])
  ∧ ∃ both gemini chatgpt tr1 tr2 tr3,
      perform_analysis world_both_up "http://good.example" (Some "both")
        "system" [] = (Return (both, 200), tr1)
      ∧ perform_analysis world_both_up "http://good.example" (Some "gemini")
          "system" [] = (Return (gemini, 200), tr2)
      ∧ perform_analysis world_both_up "http://good.example" (Some "chatgpt")
          "system" [] = (Return (chatgpt, 200), tr3)
      ∧ both = gemini ∪ chatgpt.
Proof.
  split; [reflexivity|].
  destruct (both_is_the_two_alone world_both_up "http://good.example" "system"
              [] "<html>ok</html>" [HttpGet "http://good.example"] eq_refl)
    as (both & gemini & chatgpt & tr1 & tr2 & tr3 & H1 & H2 & H3 & Hunion & _).
  exists both, gemini, chatgpt, tr1, tr2, tr3.
  split; [exact H1|]. split; [exact H2|]. split; [exact H3 | exact Hunion].
Defined.

(** X20. The prompt has a size that does not grow with the page beyond
    15000 characters: its length is that of the URL, of the fixed frame
    of 46 characters, and of the page cut at 15000. *)
Theorem user_prompt_length url source_code :
  String.length (user_prompt url source_code)
  = (String.length url + 46
     + Z.to_nat 15000 `min` String.length source_code)%nat
  ∧ (String.length (user_prompt url source_code)
     ≤ String.length url + 46 + Z.to_nat 15000)%nat.
Proof.
  assert (String.length (user_prompt url source_code)
          = (String.length url + 46
             + Z.to_nat 15000 `min` String.length source_code)%nat) as Hlen.
  { unfold user_prompt, truncated_source_code, MAX_CHARS.
    rewrite !length_app_str, substring_0_length.
    generalize (Z.to_nat 15000). intros n.
    change (String.length "URL: ") with 5%nat.
    change (String.length "

SOURCE CODE (first 15,000 characters):
") with 41%nat. lia. }
  split; [exact Hlen|]. rewrite Hlen.
  generalize (Z.to_nat 15000). intros n. lia.
Qed.
